(** * Dahua API client (custom_components/dahua/client.py)

    A shallow embedding of [DahuaClient] and the properties of its
    request plumbing, response decoding, event stream and address helpers.

    Python values are modelled as follows.
    - [str] is [string]; every [ascii] stands for the code point of the same
      number (0..255).
    - [dict] with string keys and values is [gmap string string].
    - [bytes] is [list Byte.byte].
    - [None] results are [option]'s [None].
    - A coroutine is a function from the state of the world to an outcome
      (a value or a raised exception) and the next state of the world. *)

From Stdlib Require Import ZArith Ascii String List Lia.
From Stdlib Require Import Init.Byte.
From stdpp Require Import base decidable option list strings gmap pretty.

Local Open Scope string_scope.
Local Open Scope Z_scope.

(** ** Python strings *)

Module PyStr.

Definition code (c : ascii) : N := N_of_ascii c.

Definition LF : ascii := ascii_of_N 10.
Definition CR : ascii := ascii_of_N 13.

(** The line boundaries of [str.splitlines] whose code point is below 256:
    \n, \v, \f, \r, \x1c, \x1d, \x1e and \x85. *)
Definition is_linebreak (c : ascii) : bool :=
  match code c with
  | 10 | 11 | 12 | 13 | 28 | 29 | 30 | 133 => true
  | _ => false
  end%N.

(** [s.splitlines()]: [cur] is the line read so far.  A "\r\n" pair is one
    boundary, and no empty line is produced after the last boundary. *)
Fixpoint splitlines_from (cur s : string) : list string :=
  match s with
  | EmptyString => if decide (cur = "") then [] else [cur]
  | String c rest =>
      if is_linebreak c then
        cur :: match rest with
               | String c' rest' =>
                   if Ascii.eqb c CR && Ascii.eqb c' LF
                   then splitlines_from "" rest'
                   else splitlines_from "" rest
               | EmptyString => splitlines_from "" rest
               end
      else splitlines_from (cur +:+ String c "") rest
  end.

Definition splitlines (s : string) : list string := splitlines_from "" s.

(** [s.partition(sep)] for a one-character separator, [None] when the
    separator does not occur. *)
Fixpoint partition (sep : ascii) (s : string) : option (string * string) :=
  match s with
  | EmptyString => None
  | String c rest =>
      if Ascii.eqb c sep then Some ("", rest)
      else match partition sep rest with
           | Some (before, after) => Some (String c before, after)
           | None => None
           end
  end.

(** [s.split(sep, 1)]: at most one split, at the first separator. *)
Definition split1 (sep : ascii) (s : string) : list string :=
  match partition sep s with
  | Some (before, after) => [before; after]
  | None => [s]
  end.

(** [c.lower()] on the code points below 256: A-Z and the accented capitals
    of Latin-1 (all of 0xC0..0xDE but the multiplication sign). *)
Definition lower_char (c : ascii) : ascii :=
  let n := code c in
  if ((65 <=? n) && (n <=? 90) || (192 <=? n) && (n <=? 222) && negb (n =? 215))%N
  then ascii_of_N (n + 32) else c.

Fixpoint lower (s : string) : string :=
  match s with
  | EmptyString => EmptyString
  | String c rest => String (lower_char c) (lower rest)
  end.

(** [c in s] for a character. *)
Fixpoint has_char (c : ascii) (s : string) : bool :=
  match s with
  | EmptyString => false
  | String c' rest => Ascii.eqb c' c || has_char c rest
  end.

(** [sep.join(l)]. *)
Fixpoint join (sep : string) (l : list string) : string :=
  match l with
  | [] => ""
  | [x] => x
  | x :: rest => x +:+ sep +:+ join sep rest
  end.

(** [str(b)] for a bool. *)
Definition of_bool (b : bool) : string := if b then "True" else "False".

(** [str(n)] for an int. *)
Definition of_int (n : Z) : string := pretty n.

(** [filter(None, l)] on strings: the empty string is the only falsy one. *)
Definition filter_truthy (l : list string) : list string :=
  List.filter (fun s => negb (String.eqb s "")) l.

End PyStr.

(** ** Python exceptions *)

(** The classes the client names in its handlers or raises, and those of the
    libraries it calls that matter to them. *)
Inductive pyclass :=
| BaseException
| Exception
| asyncio_TimeoutError
| asyncio_CancelledError
| KeyError
| TypeError
| IndexError
| OSError
| ConnectionError
| socket_gaierror
| aiohttp_ClientError
| aiohttp_ClientResponseError
| aiohttp_ServerTimeoutError.

#[global] Instance pyclass_eq_dec : EqDecision pyclass.
Proof. solve_decision. Defined.

(** An exception object: the name of its class, the classes it is an instance
    of, its message and its [__cause__]. *)
#[warnings="-register-all"]
Inductive exc := Exc {
  exc_type : string;
  exc_classes : list pyclass;
  exc_args : string;
  exc_cause : option exc
}.

Definition isinstance (e : exc) (c : pyclass) : bool :=
  bool_decide (c ∈ exc_classes e).

Definition isinstance_any (e : exc) (cs : list pyclass) : bool :=
  existsb (isinstance e) cs.

Module Raise.

(** [Exception(msg)] *)
Definition Exception_ (msg : string) : exc :=
  Exc "Exception" [Exception; BaseException] msg None.

(** [ConnectionError()], raised [from] a cause. *)
Definition ConnectionError_from (cause : exc) : exc :=
  Exc "ConnectionError" [ConnectionError; OSError; Exception; BaseException]
      "" (Some cause).

(** What [x in None] raises. *)
Definition TypeError_not_iterable : exc :=
  Exc "TypeError" [TypeError; Exception; BaseException]
      "argument of type 'NoneType' is not iterable" None.

(** What [parts[0]] raises on an empty list. *)
Definition IndexError_ : exc :=
  Exc "IndexError" [IndexError; Exception; BaseException]
      "list index out of range" None.

(** What aiohttp's [raise_for_status] raises. *)
Definition ClientResponseError (status : Z) : exc :=
  Exc "ClientResponseError"
      [aiohttp_ClientResponseError; aiohttp_ClientError; Exception; BaseException]
      (PyStr.of_int status) None.

End Raise.

(** The outcome of running a piece of code: it returns or it raises. *)
Inductive outcome (A : Type) :=
| Returns (a : A)
| Raises (e : exc).
Arguments Returns {A} a.
Arguments Raises {A} e.

(** ** The response decoder *)

(** One round of the loop of [parse_dahua_api_response]. *)
Definition parse_line (data_dict : gmap string string) (line : string)
  : outcome (gmap string string) :=
  let parts := PyStr.split1 "=" line in
  if decide (length parts = 2%nat) then
    match parts with
    | k :: v :: _ => Returns (<[k := v]> data_dict)
    | _ => Raises Raise.IndexError_
    end
  else
    match parts with
    | k :: _ => Returns (<[k := line]> data_dict)
    | [] => Raises Raise.IndexError_
    end.

Fixpoint parse_lines (data_dict : gmap string string) (lines : list string)
  : outcome (gmap string string) :=
  match lines with
  | [] => Returns data_dict
  | line :: rest =>
      match parse_line data_dict line with
      | Returns d => parse_lines d rest
      | Raises e => Raises e
      end
  end.

(** [DahuaClient.parse_dahua_api_response] *)
Definition parse_dahua_api_response (data : string) : outcome (gmap string string) :=
  let lines := PyStr.splitlines data in
  parse_lines ∅ lines.

(** ** The world outside the client *)

Definition bytes := list byte.

(** What an aiohttp response brings back when the client uses it: its status,
    the result of awaiting [text()] and [read()], and the chunks that
    [content.iter_chunks()] delivers, with the exception that ends the
    iteration when it does not end by exhaustion.  A request that outlives
    [async_timeout.timeout(TIMEOUT_SECONDS)] shows as the pending await raising
    an [asyncio.TimeoutError], a cancelled task as the pending await raising
    an [asyncio.CancelledError]. *)
Record response := Response {
  status : Z;
  text : exc + string;
  read : exc + bytes;
  chunks : list bytes;
  chunks_end : option exc
}.

(** The [aiohttp.ClientSession] handed to the client, seen through
    [DigestAuth.request] (digest.py): what the n-th exchange with the camera
    for a method and a URL ends with, the final response or an exception. *)
Definition session := nat -> string -> string -> exc + response.

(** What the client does to the world, in the order it does it.  Requests are
    numbered in the order they are made, authenticators in the order they are
    built; a response is named by the number of its request. *)
Inductive event :=
| NewDigestAuth (auth : nat)
| Request (auth req : nat) (method url : string)
| Close (req : nat)
| LogError (fmt : string) (url : option string) (e : exc)
| OnReceive (data : bytes).

Record world := World {
  trace : list event;
  auths : nat;
  requests : nat
}.

Definition world0 : world := World [] 0 0.

(** ** Coroutines *)

Definition M (S A : Type) : Type := S -> outcome A * S.

#[global] Instance M_ret {S} : MRet (M S) := fun A a s => (Returns a, s).
#[global] Instance M_bind {S} : MBind (M S) := fun A B f m s =>
  match m s with
  | (Returns a, s') => f a s'
  | (Raises e, s') => (Raises e, s')
  end.

Definition raise {S A} (e : exc) : M S A := fun s => (Raises e, s).

(** [try: body finally: fin] *)
Definition try_finally {S A} (body : M S A) (fin : M S unit) : M S A := fun s =>
  let '(o, s') := body s in
  match fin s' with
  | (Returns _, s'') => (o, s'')
  | (Raises e, s'') => (Raises e, s'')
  end.

(** The [except] clauses of a [try]: the classes each one names and its body. *)
Definition handlers S A := list (list pyclass * (exc -> M S A)).

Fixpoint select_handler {S A} (hs : handlers S A) (e : exc) : option (exc -> M S A) :=
  match hs with
  | [] => None
  | (classes, h) :: rest =>
      if isinstance_any e classes then Some h else select_handler rest e
  end.

(** [try: body except ...]: the first clause naming a class of the exception
    handles it, and an exception no clause names goes on. *)
Definition try_except {S A} (body : M S A) (hs : handlers S A) : M S A := fun s =>
  match body s with
  | (Returns a, s') => (Returns a, s')
  | (Raises e, s') =>
      match select_handler hs e with
      | Some h => h e s'
      | None => (Raises e, s')
      end
  end.

(** A function body with a local variable of type [L], over the state [S]. *)
Definition lift {S L A} (m : M S A) : M (S * L) A := fun '(s, l) =>
  let '(o, s') := m s in (o, (s', l)).
Definition get_local {S L} : M (S * L) L := fun '(s, l) => (Returns l, (s, l)).
Definition set_local {S L} (l : L) : M (S * L) unit := fun '(s, _) => (Returns tt, (s, l)).
Definition frame {S L A} (init : L) (body : M (S * L) A) : M S A := fun s =>
  let '(o, (s', _)) := body (s, init) in (o, s').

Definition emit (ev : event) : M world unit := fun w =>
  (Returns tt, World (trace w ++ [ev]) (auths w) (requests w)).

(** [_LOGGER.error(fmt, url, exception)] *)
Definition _LOGGER_error (fmt : string) (url : option string) (e : exc) : M world unit :=
  emit (LogError fmt url e).

(** ** The Digest authenticator, as the client uses it *)

Record DigestAuth := {
  auth_id : nat;
  auth_username : option string;
  auth_password : option string;
  auth_session : session
}.

(** An open response: the number of its request and what it brings back. *)
Definition open_response : Type := nat * response.

Module DigestAuth.

(** [DigestAuth(username, password, session)]: a new authenticator. *)
Definition new (username password : option string) (s : session) : M world DigestAuth :=
  fun w =>
    (Returns {| auth_id := auths w; auth_username := username;
                auth_password := password; auth_session := s |},
     World (trace w ++ [NewDigestAuth (auths w)]) (S (auths w)) (requests w)).

(** [await auth.request(method, url)] *)
Definition request (auth : DigestAuth) (method url : string) : M world open_response :=
  fun w =>
    let n := requests w in
    let w' := World (trace w ++ [Request (auth_id auth) n method url]) (auths w) (S n) in
    match auth_session auth n method url with
    | inl e => (Raises e, w')
    | inr r => (Returns (n, r), w')
    end.

End DigestAuth.

Module Resp.

(** aiohttp's [ClientResponse.raise_for_status()]: a [ClientResponseError]
    when the status is 400 or above ([ClientResponse.ok] is [400 > status]). *)
Definition raise_for_status {S} (r : open_response) : M S unit :=
  if 400 <=? status (snd r) then raise (Raise.ClientResponseError (status (snd r)))
  else mret tt.

(** [await response.text()] *)
Definition text {S} (r : open_response) : M S string :=
  match text (snd r) with inl e => raise e | inr s => mret s end.

(** [await response.read()] *)
Definition read {S} (r : open_response) : M S bytes :=
  match read (snd r) with inl e => raise e | inr b => mret b end.

(** [response.close()] *)
Definition close (r : open_response) : M world unit := emit (Close (fst r)).

End Resp.

(** ** The client *)

Record DahuaClient := {
  _username : option string;
  _password : option string;
  _address : string;
  _session : session;
  _port : Z;
  _rtsp_port : Z;
  _base : string
}.

(** [DahuaClient.__init__] *)
Definition DahuaClient_init (username password : option string) (address : string)
    (port rtsp_port : Z) (s : session) : DahuaClient :=
  {| _username := username; _password := password; _address := address;
     _session := s; _port := port; _rtsp_port := rtsp_port;
     _base := "http://" +:+ address +:+ ":" +:+ PyStr.of_int port |}.

(** The [finally] clause of the three request paths:
    [if response is not None: response.close()]. *)
Definition close_if_open : M (world * option open_response) unit :=
  response ← get_local;
  match response with
  | Some r => lift (Resp.close r)
  | None => mret tt
  end.

(** An [async def] outcome as a coroutine. *)
Definition of_outcome {S A} (o : outcome A) : M S A :=
  match o with Returns a => mret a | Raises e => raise e end.

(** The [except] clauses of [DahuaClient.get]: a handler that only logs falls
    off the end of the function, which returns [None]. *)
Definition get_except (url : string) : handlers world (option (gmap string string)) :=
  [ ([asyncio_TimeoutError], fun exception =>
       _LOGGER_error "TimeoutError fetching information from %s - %s" (Some url) exception;;
       mret None);
    ([KeyError; TypeError], fun exception =>
       _LOGGER_error "TypeError parsing information from %s - %s" (Some url) exception;;
       mret None);
    ([aiohttp_ClientError; socket_gaierror], fun exception =>
       raise exception);
    ([Exception], fun exception =>
       _LOGGER_error "Something really wrong happened! - %s" None exception;;
       mret None) ].

(** [DahuaClient.get].  The local [data = {}] is overwritten before its only
    use and is left out. *)
Definition get (self : DahuaClient) (url : string) : M world (option (gmap string string)) :=
  let url := _base self +:+ url in
  try_except
    (frame (None : option open_response)
       (try_finally
          (auth ← lift (DigestAuth.new (_username self) (_password self) (_session self));
           response ← lift (DigestAuth.request auth "GET" url);
           set_local (Some response);;
           Resp.raise_for_status response;;
           data ← Resp.text response;
           d ← of_outcome (parse_dahua_api_response data);
           mret (Some d))
          close_if_open))
    (get_except url).

(** The [except] clauses of [DahuaClient.get_bytes]. *)
Definition get_bytes_except (url : string) : handlers world (option bytes) :=
  [ ([asyncio_TimeoutError], fun exception =>
       _LOGGER_error "Timeout error fetching information from %s - %s" (Some url) exception;;
       mret None);
    ([KeyError; TypeError], fun exception =>
       _LOGGER_error "Error parsing information from %s - %s" (Some url) exception;;
       mret None);
    ([aiohttp_ClientError; socket_gaierror], fun exception =>
       _LOGGER_error "Error fetching information from %s - %s" (Some url) exception;;
       mret None);
    ([Exception], fun exception =>
       _LOGGER_error "Something really wrong happened! - %s" None exception;;
       mret None) ].

(** [DahuaClient.get_bytes] *)
Definition get_bytes (self : DahuaClient) (url : string) : M world (option bytes) :=
  try_except
    (frame (None : option open_response)
       (try_finally
          (auth ← lift (DigestAuth.new (_username self) (_password self) (_session self));
           response ← lift (DigestAuth.request auth "GET" (_base self +:+ url));
           set_local (Some response);;
           Resp.raise_for_status response;;
           b ← Resp.read response;
           mret (Some b))
          close_if_open))
    (get_bytes_except url).

(** [key in value] for the result of [get]: a key test on a dict, a
    [TypeError] on [None]. *)
Definition py_in {S} (key : string) (value : option (gmap string string)) : M S bool :=
  match value with
  | Some d => mret (bool_decide (is_Some (d !! key)))
  | None => raise Raise.TypeError_not_iterable
  end.

(** The test every "set" operation ends with:
    [if "OK" not in value and "ok" not in value: raise Exception(msg)].
    The right operand of [and] is evaluated only when the left one holds. *)
Definition raise_unless_ok {S} (value : option (gmap string string)) (msg : string)
  : M S unit :=
  has_OK ← py_in "OK" value;
  no_ok ← (if negb has_OK
           then has_ok ← py_in "ok" value; mret (negb has_ok)
           else mret false);
  if no_ok : bool then raise (Raise.Exception_ msg) else mret tt.

Definition setConfig : string := "/cgi-bin/configManager.cgi?action=setConfig&".

(** [DahuaClient.async_set_video_profile_mode] *)
Definition async_set_video_profile_mode (self : DahuaClient) (mode : string) : M world unit :=
  let mode := if decide (PyStr.lower mode = "night") then "1" else "0" in
  let url := setConfig +:+ "VideoInMode[0].Config[0]=" +:+ mode in
  value ← get self url;
  raise_unless_ok value "Could not set video profile mode".

(** [DahuaClient.async_enable_channel_title] *)
Definition async_enable_channel_title (self : DahuaClient) (channel : Z) (enabled : bool)
  : M world unit :=
  let url := setConfig +:+ "VideoWidget[" +:+ PyStr.of_int channel
             +:+ "].ChannelTitle.EncodeBlend=" +:+ PyStr.lower (PyStr.of_bool enabled) in
  value ← get self url;
  raise_unless_ok value "Could enable/disable channel title".

(** [DahuaClient.async_enable_time_overlay] *)
Definition async_enable_time_overlay (self : DahuaClient) (channel : Z) (enabled : bool)
  : M world unit :=
  let url := setConfig +:+ "VideoWidget[" +:+ PyStr.of_int channel
             +:+ "].TimeTitle.EncodeBlend=" +:+ PyStr.lower (PyStr.of_bool enabled) in
  value ← get self url;
  raise_unless_ok value "Could not enable/disable time overlay".

(** [DahuaClient.async_enable_text_overlay] *)
Definition async_enable_text_overlay (self : DahuaClient) (channel group : Z) (enabled : bool)
  : M world unit :=
  let url := setConfig +:+ "VideoWidget[" +:+ PyStr.of_int channel
             +:+ "].CustomTitle[" +:+ PyStr.of_int group
             +:+ "].EncodeBlend=" +:+ PyStr.lower (PyStr.of_bool enabled) in
  value ← get self url;
  raise_unless_ok value "Could not enable/disable text overlay".

(** [DahuaClient.async_enable_custom_overlay] *)
Definition async_enable_custom_overlay (self : DahuaClient) (channel group : Z) (enabled : bool)
  : M world unit :=
  let url := setConfig +:+ "VideoWidget[" +:+ PyStr.of_int channel
             +:+ "].UserDefinedTitle[" +:+ PyStr.of_int group
             +:+ "].EncodeBlend=" +:+ PyStr.lower (PyStr.of_bool enabled) in
  value ← get self url;
  raise_unless_ok value "Could not enable/disable customer overlay".

(** [DahuaClient.async_set_service_set_channel_title] *)
Definition async_set_service_set_channel_title (self : DahuaClient) (channel : Z)
    (text1 text2 : string) : M world unit :=
  let text := PyStr.join "|" (PyStr.filter_truthy [text1; text2]) in
  let url := setConfig +:+ "ChannelTitle[" +:+ PyStr.of_int channel +:+ "].Name=" +:+ text in
  value ← get self url;
  raise_unless_ok value "Could not set text".

(** [DahuaClient.async_set_service_set_text_overlay] *)
Definition async_set_service_set_text_overlay (self : DahuaClient) (channel group : Z)
    (text1 text2 text3 text4 : string) : M world unit :=
  let text := PyStr.join "|" (PyStr.filter_truthy [text1; text2; text3; text4]) in
  let url := setConfig +:+ "VideoWidget[" +:+ PyStr.of_int channel
             +:+ "].CustomTitle[" +:+ PyStr.of_int group +:+ "].Text=" +:+ text in
  value ← get self url;
  raise_unless_ok value "Could not set text".

(** [DahuaClient.async_set_service_set_custom_overlay] *)
Definition async_set_service_set_custom_overlay (self : DahuaClient) (channel group : Z)
    (text1 text2 : string) : M world unit :=
  let text := PyStr.join "|" (PyStr.filter_truthy [text1; text2]) in
  let url := setConfig +:+ "VideoWidget[" +:+ PyStr.of_int channel
             +:+ "].UserDefinedTitle[" +:+ PyStr.of_int group +:+ "].Text=" +:+ text in
  value ← get self url;
  raise_unless_ok value "Could not set text".

(** The two URLs of [enable_motion_detection]. *)
Definition motion_detection_url (enabled : bool) : string :=
  setConfig +:+ "MotionDetect[0].Enable=" +:+ PyStr.lower (PyStr.of_bool enabled)
  +:+ "&MotionDetect[0].DetectVersion=V3.0".
Definition motion_detection_legacy_url (enabled : bool) : string :=
  setConfig +:+ "MotionDetect[0].Enable=" +:+ PyStr.lower (PyStr.of_bool enabled).

(** [DahuaClient.enable_motion_detection] *)
Definition enable_motion_detection (self : DahuaClient) (enabled : bool)
  : M world (option (gmap string string)) :=
  let url := motion_detection_url enabled in
  response ← get self url;
  has_OK ← py_in "OK" response;
  if has_OK : bool then mret response
  else
    let url := motion_detection_legacy_url enabled in
    response ← get self url;
    mret response.

(** The body of [async for data, _ in response.content.iter_chunks():
    on_receive(data)]: the handler is called on each chunk the transport
    delivers and may raise; the iteration ends by exhaustion or by an
    exception of the transport. *)
Fixpoint iter_chunks (on_receive : bytes -> option exc) (cs : list bytes)
    (ending : option exc) : M world unit :=
  match cs with
  | [] => match ending with Some e => raise e | None => mret tt end
  | data :: rest =>
      emit (OnReceive data);;
      match on_receive data with
      | Some e => raise e
      | None => iter_chunks on_receive rest ending
      end
  end.

Definition stream_events_url (self : DahuaClient) (events : list string) : string :=
  let codes := PyStr.join "," events in
  _base self +:+ "/cgi-bin/eventManager.cgi?action=attach&codes=[" +:+ codes
  +:+ "]&heartbeat=2".

(** [DahuaClient.stream_events] *)
Definition stream_events (self : DahuaClient) (on_receive : bytes -> option exc)
    (events : list string) : M world unit :=
  let url := stream_events_url self events in
  match _username self, _password self with
  | Some username, Some password =>
      frame (None : option open_response)
        (try_finally
           (try_except
              (auth ← lift (DigestAuth.new (Some username) (Some password) (_session self));
               response ← lift (DigestAuth.request auth "GET" url);
               set_local (Some response);;
               Resp.raise_for_status response;;
               lift (iter_chunks on_receive (chunks (snd response))
                                 (chunks_end (snd response))))
              [ ([Exception], fun exception =>
                   raise (Raise.ConnectionError_from exception)) ])
           close_if_open)
  | _, _ => mret tt
  end.

(** ** Address helpers *)

(** Modelled from the spec: const.py, which defines [STREAM_MAIN] and
    [STREAM_SUB], is not among the sources; the spec names the two streams
    "Main" and "Sub". *)
Definition STREAM_MAIN : string := "Main".
Definition STREAM_SUB : string := "Sub".

(** [DahuaClient.to_subtype] *)
Definition to_subtype (stream_name : string) : Z :=
  if decide (stream_name = STREAM_MAIN) then 0
  else if decide (stream_name = STREAM_SUB) then 1
  else 0.

(** [DahuaClient.to_stream_name] *)
Definition to_stream_name (subtype : Z) : string :=
  if decide (subtype = 1) then STREAM_SUB
  else STREAM_MAIN.

(** ** The "set configuration" operations, as one family *)

Inductive set_operation :=
| SetVideoProfileMode (mode : string)
| EnableChannelTitle (channel : Z) (enabled : bool)
| EnableTimeOverlay (channel : Z) (enabled : bool)
| EnableTextOverlay (channel group : Z) (enabled : bool)
| EnableCustomOverlay (channel group : Z) (enabled : bool)
| SetChannelTitle (channel : Z) (text1 text2 : string)
| SetTextOverlay (channel group : Z) (text1 text2 text3 text4 : string)
| SetCustomOverlay (channel group : Z) (text1 text2 : string).

Definition run_set (self : DahuaClient) (op : set_operation) : M world unit :=
  match op with
  | SetVideoProfileMode mode => async_set_video_profile_mode self mode
  | EnableChannelTitle channel enabled => async_enable_channel_title self channel enabled
  | EnableTimeOverlay channel enabled => async_enable_time_overlay self channel enabled
  | EnableTextOverlay channel group enabled =>
      async_enable_text_overlay self channel group enabled
  | EnableCustomOverlay channel group enabled =>
      async_enable_custom_overlay self channel group enabled
  | SetChannelTitle channel text1 text2 =>
      async_set_service_set_channel_title self channel text1 text2
  | SetTextOverlay channel group text1 text2 text3 text4 =>
      async_set_service_set_text_overlay self channel group text1 text2 text3 text4
  | SetCustomOverlay channel group text1 text2 =>
      async_set_service_set_custom_overlay self channel group text1 text2
  end.

(** The URL each operation asks [get] for. *)
Definition set_url (op : set_operation) : string :=
  setConfig +:+
  match op with
  | SetVideoProfileMode mode =>
      "VideoInMode[0].Config[0]="
      +:+ (if decide (PyStr.lower mode = "night") then "1" else "0")
  | EnableChannelTitle channel enabled =>
      "VideoWidget[" +:+ PyStr.of_int channel +:+ "].ChannelTitle.EncodeBlend="
      +:+ PyStr.lower (PyStr.of_bool enabled)
  | EnableTimeOverlay channel enabled =>
      "VideoWidget[" +:+ PyStr.of_int channel +:+ "].TimeTitle.EncodeBlend="
      +:+ PyStr.lower (PyStr.of_bool enabled)
  | EnableTextOverlay channel group enabled =>
      "VideoWidget[" +:+ PyStr.of_int channel +:+ "].CustomTitle["
      +:+ PyStr.of_int group +:+ "].EncodeBlend=" +:+ PyStr.lower (PyStr.of_bool enabled)
  | EnableCustomOverlay channel group enabled =>
      "VideoWidget[" +:+ PyStr.of_int channel +:+ "].UserDefinedTitle["
      +:+ PyStr.of_int group +:+ "].EncodeBlend=" +:+ PyStr.lower (PyStr.of_bool enabled)
  | SetChannelTitle channel text1 text2 =>
      "ChannelTitle[" +:+ PyStr.of_int channel +:+ "].Name="
      +:+ PyStr.join "|" (PyStr.filter_truthy [text1; text2])
  | SetTextOverlay channel group text1 text2 text3 text4 =>
      "VideoWidget[" +:+ PyStr.of_int channel +:+ "].CustomTitle["
      +:+ PyStr.of_int group +:+ "].Text="
      +:+ PyStr.join "|" (PyStr.filter_truthy [text1; text2; text3; text4])
  | SetCustomOverlay channel group text1 text2 =>
      "VideoWidget[" +:+ PyStr.of_int channel +:+ "].UserDefinedTitle["
      +:+ PyStr.of_int group +:+ "].Text="
      +:+ PyStr.join "|" (PyStr.filter_truthy [text1; text2])
  end.

(** The message of the exception each operation raises. *)
Definition set_error (op : set_operation) : string :=
  match op with
  | SetVideoProfileMode _ => "Could not set video profile mode"
  | EnableChannelTitle _ _ => "Could enable/disable channel title"
  | EnableTimeOverlay _ _ => "Could not enable/disable time overlay"
  | EnableTextOverlay _ _ _ => "Could not enable/disable text overlay"
  | EnableCustomOverlay _ _ _ => "Could not enable/disable customer overlay"
  | SetChannelTitle _ _ _ | SetTextOverlay _ _ _ _ _ _ | SetCustomOverlay _ _ _ _ =>
      "Could not set text"
  end.

(** ** Cameras and failures to try the client on *)

Module Sample.

(** A camera that answers every request with status 200 and one body. *)
Definition answering (body : string) : session := fun _ _ _ =>
  inr (Response 200 (inr body) (inr []) [] None).

(** A camera that answers the first request with one response and every
    later request with another. *)
Definition in_turn (first later : response) : session := fun n _ _ =>
  match n with
  | O => inr first
  | S _ => inr later
  end.

(** A network on which every exchange raises one exception. *)
Definition failing (e : exc) : session := fun _ _ _ => inl e.

Definition client (s : session) : DahuaClient :=
  DahuaClient_init (Some "admin") (Some "admin") "192.168.1.108" 80 554 s.

(** [asyncio.TimeoutError], as [async_timeout.timeout] raises it. *)
Definition TimeoutError_ : exc :=
  Exc "TimeoutError" [asyncio_TimeoutError; Exception; BaseException] "" None.

(** [socket.gaierror]: the name of the camera does not resolve. *)
Definition gaierror_ : exc :=
  Exc "gaierror" [socket_gaierror; OSError; Exception; BaseException]
      "[Errno -2] Name or service not known" None.

(** [aiohttp.ServerTimeoutError], a subclass of aiohttp's
    [ServerConnectionError] (a [ClientError]) and of [asyncio.TimeoutError]:
    a socket read or connect that ran out of the session's own time. *)
Definition ServerTimeoutError_ : exc :=
  Exc "ServerTimeoutError"
      [aiohttp_ServerTimeoutError; aiohttp_ClientError; asyncio_TimeoutError;
       Exception; BaseException]
      "" None.

(** [asyncio.CancelledError], a [BaseException] that is no [Exception]. *)
Definition CancelledError_ : exc :=
  Exc "CancelledError" [asyncio_CancelledError; BaseException] "" None.

End Sample.

(** ** The vocabulary of the properties *)

(** The key and the value a line is stored under. *)
Definition line_key (line : string) : string :=
  match PyStr.partition "=" line with Some (k, _) => k | None => line end.
Definition line_value (line : string) : string :=
  match PyStr.partition "=" line with Some (_, v) => v | None => line end.

Definition store_line (d : gmap string string) (line : string) : gmap string string :=
  <[line_key line := line_value line]> d.

Definition nl : string := String PyStr.LF "".

(** A string with no line boundary in it. *)
Fixpoint one_line (s : string) : bool :=
  match s with
  | EmptyString => true
  | String c rest => negb (PyStr.is_linebreak c) && one_line rest
  end.

(** The worlds a request path goes through. *)
Definition sent (w : world) (full : string) : world :=
  World ((trace w ++ [NewDigestAuth (auths w)])
           ++ [Request (auths w) (requests w) "GET" full])
        (S (auths w)) (S (requests w)).
Definition released (w : world) (req : nat) : world :=
  World (trace w ++ [Close req]) (auths w) (requests w).
Definition logged (w : world) (fmt : string) (url : option string) (e : exc) : world :=
  World (trace w ++ [LogError fmt url e]) (auths w) (requests w).

(** How a one-off fetch fails with [e]: the exchange raises it, or the
    response is there and reading its body raises it. *)
Inductive fails_with (answer : exc + response) (e : exc) : Prop :=
| fails_in_request : answer = inl e → fails_with answer e
| fails_in_body r :
    answer = inr r → status r < 400 → text r = inl e → read r = inl e →
    fails_with answer e.

(** The world once the failure has reached the [except] clauses. *)
Definition failed (w : world) (full : string) (answer : exc + response) : world :=
  match answer with
  | inl _ => sent w full
  | inr _ => released (sent w full) (requests w)
  end.

Definition quiet (ev : event) : Prop :=
  match ev with
  | NewDigestAuth _ | Request _ _ _ _ => False
  | _ => True
  end.

(** What the loop over the chunks ends with ([None]: the chunks ran out), and
    the chunks the handler was called on. *)
Fixpoint stream_result (on_receive : bytes -> option exc) (cs : list bytes)
    (ending : option exc) : option exc :=
  match cs with
  | [] => ending
  | data :: rest =>
      match on_receive data with
      | Some e => Some e
      | None => stream_result on_receive rest ending
      end
  end.

Fixpoint delivered (on_receive : bytes -> option exc) (cs : list bytes) : list bytes :=
  match cs with
  | [] => []
  | data :: rest =>
      data :: match on_receive data with
              | Some _ => []
              | None => delivered on_receive rest
              end
  end.

Definition received (w : world) (datas : list bytes) : world :=
  World (trace w ++ (OnReceive <$> datas)) (auths w) (requests w).

(** What the [except Exception] clause of [stream_events] lets out. *)
Definition surfaced (e : exc) : exc :=
  if isinstance e Exception then Raise.ConnectionError_from e else e.

(** The responses closed in a stretch of the trace, in order. *)
Fixpoint closes (t : list event) : list nat :=
  match t with
  | [] => []
  | Close n :: rest => n :: closes rest
  | _ :: rest => closes rest
  end.

(** The chunks handed to the handler in a stretch of the trace. *)
Fixpoint handled (t : list event) : list bytes :=
  match t with
  | [] => []
  | OnReceive data :: rest => data :: handled rest
  | _ :: rest => handled rest
  end.

(** The calls a client serves over its lifetime, one after the other. *)
Inductive call :=
| CallGet (url : string)
| CallGetBytes (url : string)
| CallStreamEvents (on_receive : bytes -> option exc) (events : list string).

Definition after_call (self : DahuaClient) (w : world) (c : call) : world :=
  match c with
  | CallGet url => snd (get self url w)
  | CallGetBytes url => snd (get_bytes self url w)
  | CallStreamEvents on_receive events => snd (stream_events self on_receive events w)
  end.

Definition after_calls (self : DahuaClient) (w : world) (calls : list call) : world :=
  foldl (after_call self) w calls.

(** The authenticators built, and those the requests went through, in order. *)
Fixpoint created (t : list event) : list nat :=
  match t with
  | [] => []
  | NewDigestAuth a :: rest => a :: created rest
  | _ :: rest => created rest
  end.

Fixpoint used (t : list event) : list nat :=
  match t with
  | [] => []
  | Request a _ _ _ :: rest => a :: used rest
  | _ :: rest => used rest
  end.

(** ** The other operations of the client *)

(** [_LOGGER.debug(fmt, ...)]: debug messages are not kept in the trace. *)
Definition _LOGGER_debug (fmt : string) (args : list string) : M world unit := mret tt.

(** [str(x)] for a string that may be [None]. *)
Definition str_of_optional (x : option string) : string :=
  match x with Some s => s | None => "None" end.

(** [DahuaClient.get_rtsp_stream_url] *)
Definition get_rtsp_stream_url (self : DahuaClient) (channel subtype : Z) : string :=
  "rtsp://" +:+ str_of_optional (_username self) +:+ ":"
  +:+ str_of_optional (_password self) +:+ "@" +:+ _address self +:+ ":"
  +:+ PyStr.of_int (_rtsp_port self) +:+ "/cam/realmonitor?channel="
  +:+ PyStr.of_int channel +:+ "&subtype=" +:+ PyStr.of_int subtype.

(** [DahuaClient.async_get_snapshot] *)
Definition async_get_snapshot (self : DahuaClient) (channel : Z) : M world (option bytes) :=
  let url := "/cgi-bin/snapshot.cgi?channel=" +:+ PyStr.of_int channel in
  get_bytes self url.

(** [DahuaClient.async_get_system_info] *)
Definition async_get_system_info (self : DahuaClient) : M world (option (gmap string string)) :=
  let url := "/cgi-bin/magicBox.cgi?action=getSystemInfo" in
  get self url.

(** [DahuaClient.get_software_version] *)
Definition get_software_version (self : DahuaClient) : M world (option (gmap string string)) :=
  let url := "/cgi-bin/magicBox.cgi?action=getSoftwareVersion" in
  get self url.

(** [DahuaClient.get_machine_name] *)
Definition get_machine_name (self : DahuaClient) : M world (option (gmap string string)) :=
  let url := "/cgi-bin/magicBox.cgi?action=getMachineName" in
  get self url.

(** [DahuaClient.get_vendor] *)
Definition get_vendor (self : DahuaClient) : M world (option (gmap string string)) :=
  let url := "/cgi-bin/magicBox.cgi?action=getVendor" in
  get self url.

(** [DahuaClient.async_get_coaxial_control_io_status] *)
Definition async_get_coaxial_control_io_status (self : DahuaClient)
  : M world (option (gmap string string)) :=
  let url := "/cgi-bin/coaxialControlIO.cgi?action=getStatus&channel=1" in
  get self url.

(** [DahuaClient.async_get_lighting_v2] *)
Definition async_get_lighting_v2 (self : DahuaClient) : M world (option (gmap string string)) :=
  let url := "/cgi-bin/configManager.cgi?action=getConfig&name=Lighting_V2" in
  get self url.

(** [DahuaClient.async_get_machine_name] *)
Definition async_get_machine_name (self : DahuaClient) : M world (option (gmap string string)) :=
  let url := "/cgi-bin/configManager.cgi?action=getConfig&name=General" in
  get self url.

(** [DahuaClient.async_common_config], for the profile modes 0, 1 and 2 of its
    docstring. *)
Definition async_common_config (self : DahuaClient) (profile_mode : Z)
  : M world (option (gmap string string)) :=
  let url := "/cgi-bin/configManager.cgi?action=getConfig&name=MotionDetect&action=getConfig&name=Lighting[0]["
             +:+ PyStr.of_int profile_mode +:+ "]" in
  get self url.

(** [DahuaClient.async_get_config] *)
Definition async_get_config (self : DahuaClient) (name : string)
  : M world (option (gmap string string)) :=
  let url := "/cgi-bin/configManager.cgi?action=getConfig&name=" +:+ name in
  get self url.

(** [DahuaClient.async_set_lighting_v2] *)
Definition async_set_lighting_v2 (self : DahuaClient) (enabled : bool) (brightness : Z)
    (profile_mode : string) : M world (option (gmap string string)) :=
  let mode := if negb enabled then "Off" else "Manual" in
  let url := setConfig +:+ "Lighting_V2[0][" +:+ profile_mode +:+ "][0].Mode=" +:+ mode
             +:+ "&Lighting_V2[0][" +:+ profile_mode +:+ "][0].MiddleLight[0].Light="
             +:+ PyStr.of_int brightness in
  _LOGGER_debug "Turning light on: %s" [url];;
  get self url.

(** [DahuaClient.async_get_video_in_mode] *)
Definition async_get_video_in_mode (self : DahuaClient) : M world (option (gmap string string)) :=
  let url := "/cgi-bin/configManager.cgi?action=getConfig&name=VideoInMode" in
  get self url.

(** [DahuaClient.async_set_coaxial_control_state] *)
Definition async_set_coaxial_control_state (self : DahuaClient) (dahua_type : Z)
    (enabled : bool) : M world (option (gmap string string)) :=
  let io := if negb enabled then "2" else "1" in
  let url := "/cgi-bin/coaxialControlIO.cgi?action=control&channel=0&info[0].Type="
             +:+ PyStr.of_int dahua_type +:+ "&info[0].IO=" +:+ io in
  _LOGGER_debug "Setting coaxial control state to %s: %s" [io; url];;
  get self url.

(** [DahuaClient.async_set_disarming_linkage] *)
Definition async_set_disarming_linkage (self : DahuaClient) (enabled : bool)
  : M world (option (gmap string string)) :=
  let value := if enabled then "true" else "false" in
  let url := setConfig +:+ "DisableLinkage[0].Enable=" +:+ value in
  get self url.

(** The value [async_set_record_mode] sends for a mode: the names it knows,
    in any letter case, become a digit, and any other mode goes as it is. *)
Definition record_mode_value (mode : string) : string :=
  if decide (PyStr.lower mode = "auto") then "0"
  else if decide (PyStr.lower mode = "manual" ∨ PyStr.lower mode = "on") then "1"
  else if decide (PyStr.lower mode = "off") then "2"
  else mode.

(** [DahuaClient.async_set_record_mode] *)
Definition async_set_record_mode (self : DahuaClient) (mode : string)
  : M world (option (gmap string string)) :=
  let mode := record_mode_value mode in
  let url := setConfig +:+ "RecordMode[0].Mode=" +:+ mode in
  _LOGGER_debug "Setting record mode: %s" [url];;
  get self url.

(** [DahuaClient.async_get_disarming_linkage] *)
Definition async_get_disarming_linkage (self : DahuaClient)
  : M world (option (gmap string string)) :=
  let url := "/cgi-bin/configManager.cgi?action=getConfig&name=DisableLinkage" in
  get self url.

(** The operations of the client that go to the camera through [get] or
    [get_bytes], as one family: the snapshot, the eleven getters,
    [async_set_lighting_v2], [async_set_coaxial_control_state],
    [async_set_disarming_linkage], [async_set_record_mode],
    [enable_motion_detection] and the eight "set configuration" operations.
    Three operations are not in it: [stream_events], and
    [async_set_lighting_v1] and [async_set_lighting_v1_mode], whose
    [mode.capitalize()] can leave the code points below 256. *)
Inductive operation :=
| GetSnapshot (channel : Z)
| GetSystemInfo
| GetSoftwareVersion
| GetMachineName
| GetVendor
| GetCoaxialControlIOStatus
| GetLightingV2
| GetGeneral
| CommonConfig (profile_mode : Z)
| GetConfig (name : string)
| SetLightingV2 (enabled : bool) (brightness : Z) (profile_mode : string)
| GetVideoInMode
| SetCoaxialControlState (dahua_type : Z) (enabled : bool)
| SetDisarmingLinkage (enabled : bool)
| SetRecordMode (mode : string)
| GetDisarmingLinkage
| EnableMotionDetection (enabled : bool)
| SetConfiguration (op : set_operation).

(** The world after an operation, whatever it returned or raised. *)
Definition after_operation (self : DahuaClient) (w : world) (op : operation) : world :=
  match op with
  | GetSnapshot channel => snd (async_get_snapshot self channel w)
  | GetSystemInfo => snd (async_get_system_info self w)
  | GetSoftwareVersion => snd (get_software_version self w)
  | GetMachineName => snd (get_machine_name self w)
  | GetVendor => snd (get_vendor self w)
  | GetCoaxialControlIOStatus => snd (async_get_coaxial_control_io_status self w)
  | GetLightingV2 => snd (async_get_lighting_v2 self w)
  | GetGeneral => snd (async_get_machine_name self w)
  | CommonConfig profile_mode => snd (async_common_config self profile_mode w)
  | GetConfig name => snd (async_get_config self name w)
  | SetLightingV2 enabled brightness profile_mode =>
      snd (async_set_lighting_v2 self enabled brightness profile_mode w)
  | GetVideoInMode => snd (async_get_video_in_mode self w)
  | SetCoaxialControlState dahua_type enabled =>
      snd (async_set_coaxial_control_state self dahua_type enabled w)
  | SetDisarmingLinkage enabled => snd (async_set_disarming_linkage self enabled w)
  | SetRecordMode mode => snd (async_set_record_mode self mode w)
  | GetDisarmingLinkage => snd (async_get_disarming_linkage self w)
  | EnableMotionDetection enabled => snd (enable_motion_detection self enabled w)
  | SetConfiguration op => snd (run_set self op w)
  end.

(** The relative URL of a one-off call. *)
Definition call_path (c : call) : option string :=
  match c with
  | CallGet url | CallGetBytes url => Some url
  | CallStreamEvents _ _ => None
  end.

(** The requests of a stretch of the trace that were answered by a response. *)
Fixpoint answered (s : session) (t : list event) : list nat :=
  match t with
  | [] => []
  | Request _ n method url :: rest =>
      match s n method url with
      | inr _ => n :: answered s rest
      | inl _ => answered s rest
      end
  | _ :: rest => answered s rest
  end.

(** Every request of a stretch of the trace is a GET to the client's base. *)
Definition to_the_camera (self : DahuaClient) (ev : event) : Prop :=
  match ev with
  | Request _ _ method url => method = "GET" ∧ String.prefix (_base self) url = true
  | _ => True
  end.

(** The text a camera would send for a list of entries: a line [k=v] and a
    newline for each. *)
Fixpoint render (entries : list (string * string)) : string :=
  match entries with
  | [] => ""
  | (k, v) :: rest => k +:+ "=" +:+ v +:+ nl +:+ render rest
  end.

(** An entry that survives the text form: no line boundary in the key or the
    value, and no '=' in the key. *)
Definition plain_entry (k v : string) : Prop :=
  one_line k = true ∧ PyStr.has_char "=" k = false ∧ one_line v = true.

Definition entry_line (entry : string * string) : string :=
  entry.1 +:+ "=" +:+ entry.2.

(** The responses a request path closes: that of its request, if there is one. *)
Definition to_close (self : DahuaClient) (w : world) (full : string) : list nat :=
  match _session self (requests w) "GET" full with
  | inr _ => [requests w]
  | inl _ => []
  end.

(** What holds of a world between two calls: the responses closed are those
    obtained, none twice, and all belong to requests already made. *)
Definition settled (self : DahuaClient) (w : world) : Prop :=
  closes (trace w) = answered (_session self) (trace w) ∧
  NoDup (closes (trace w)) ∧
  Forall (λ n, n < requests w)%nat (closes (trace w)).

(** A one-off call on a path of the camera's CGI. *)
Definition cgi_call (c : call) : Prop :=
  match call_path c with
  | Some url => String.prefix "/cgi-bin/" url = true
  | None => False
  end.

(** The calls an operation of the family is made of: one call on a path of
    the CGI, and for [enable_motion_detection] the call on its first URL,
    alone or followed by the call on the legacy URL. *)
Definition calls_shape (op : operation) (cs : list call) : Prop :=
  Forall cgi_call cs ∧
  match op with
  | EnableMotionDetection enabled =>
      cs = [CallGet (motion_detection_url enabled)] ∨
      cs = [CallGet (motion_detection_url enabled);
            CallGet (motion_detection_legacy_url enabled)]
  | _ => length cs = 1%nat
  end.

(** A request to the camera's CGI, or an event that is no request. *)
Definition cgi_request (self : DahuaClient) (ev : event) : Prop :=
  match ev with
  | Request _ _ method url =>
      method = "GET" ∧ String.prefix (_base self +:+ "/cgi-bin/") url = true
  | _ => True
  end.

Definition after_operations (self : DahuaClient) (w : world) (ops : list operation)
  : world :=
  foldl (after_operation self) w ops.

(** * Properties *)

(** ** Address helpers *)

(** C8: [to_subtype] sends "Main" to 0, "Sub" to 1 and every other string to
    0; [to_stream_name] sends 1 to "Sub" and every other integer to "Main";
    and [to_stream_name (to_subtype x) = x] for x among "Main" and "Sub". *)
Theorem to_subtype_to_stream_name :
  to_subtype "Main" = 0 ∧
  to_subtype "Sub" = 1 ∧
  (∀ s : string, s ≠ "Main" → s ≠ "Sub" → to_subtype s = 0) ∧
  to_stream_name 1 = "Sub" ∧
  (∀ n : Z, n ≠ 1 → to_stream_name n = "Main") ∧
  (∀ x : string, x = "Main" ∨ x = "Sub" → to_stream_name (to_subtype x) = x).
Proof.
  repeat split; try reflexivity.
  - intros s Hmain Hsub. unfold to_subtype, STREAM_MAIN, STREAM_SUB.
    repeat case_decide; congruence.
  - intros n Hn. unfold to_stream_name. case_decide; [contradiction | reflexivity].
  - intros x [-> | ->]; reflexivity.
Qed.

Lemma to_subtype_to_stream_name_witness :
  to_subtype "Third" = 0 ∧ to_stream_name 7 = "Main" ∧
  to_stream_name (to_subtype "Sub") = "Sub".
Proof.
  destruct to_subtype_to_stream_name as (_ & _ & Hother & _ & Hname & Hround).
  split; [apply (Hother "Third"); discriminate |].
  split; [apply (Hname 7); lia |].
  apply (Hround "Sub"). right. reflexivity.
Defined.

(** ** The response decoder *)

Section Decoder.

Lemma parse_line_store d line : parse_line d line = Returns (store_line d line).
Proof.
  unfold parse_line, store_line, line_key, line_value, PyStr.split1.
  destruct (PyStr.partition "=" line) as [[k v]|]; reflexivity.
Qed.

Lemma parse_lines_store lines : ∀ d, parse_lines d lines = Returns (foldl store_line d lines).
Proof.
  induction lines as [|line rest IH]; intros d; simpl; [reflexivity|].
  rewrite parse_line_store. apply IH.
Qed.

Lemma partition_first sep k v :
  PyStr.has_char sep k = false →
  PyStr.partition sep (k +:+ String sep v) = Some (k, v).
Proof.
  induction k as [|c k IH]; simpl; intros H.
  - rewrite Ascii.eqb_refl. reflexivity.
  - apply orb_false_iff in H as [Hc Hk]. rewrite Hc.
    rewrite (IH Hk). reflexivity.
Qed.

Lemma partition_absent sep s :
  PyStr.has_char sep s = false → PyStr.partition sep s = None.
Proof.
  induction s as [|c s IH]; simpl; intros H; [reflexivity|].
  apply orb_false_iff in H as [Hc Hs]. rewrite Hc, (IH Hs). reflexivity.
Qed.

Lemma foldl_store_other k lines : ∀ d,
  Forall (λ l, line_key l ≠ k) lines →
  foldl store_line d lines !! k = d !! k.
Proof.
  induction lines as [|l rest IH]; intros d Hall; simpl; [reflexivity|].
  inversion Hall as [|? ? Hl Hrest]; subst.
  rewrite (IH _ Hrest). unfold store_line. apply lookup_insert_ne. exact Hl.
Qed.

Lemma foldl_store_last (l1 : list string) line l2 d :
  Forall (λ l, line_key l ≠ line_key line) l2 →
  foldl store_line d (l1 ++ line :: l2)%list !! line_key line = Some (line_value line).
Proof.
  intros Hall. rewrite foldl_app. simpl.
  rewrite (foldl_store_other _ _ _ Hall). unfold store_line at 1.
  apply lookup_insert_eq.
Qed.

Lemma foldl_store_keys k lines : ∀ d,
  is_Some (foldl store_line d lines !! k) →
  is_Some (d !! k) ∨ ∃ line, line ∈ lines ∧ line_key line = k.
Proof.
  induction lines as [|l rest IH]; intros d H; simpl in *; [left; exact H|].
  destruct (IH _ H) as [Hd | (line & Hin & Hk)].
  - unfold store_line in Hd. destruct (decide (line_key l = k)) as [Heq|Hne].
    + right. exists l. split; [left | exact Heq].
    + rewrite lookup_insert_ne in Hd by exact Hne. left. exact Hd.
  - right. exists line. split; [right; exact Hin | exact Hk].
Qed.

Lemma str_app_empty (s : string) : s +:+ "" = s.
Proof.
  induction s as [|c s IH]; [reflexivity|].
  change (String c (s +:+ "") = String c s). rewrite IH. reflexivity.
Qed.

Lemma str_app_cons (s : string) c t : (s +:+ String c "") +:+ t = s +:+ String c t.
Proof.
  induction s as [|c' s IH]; [reflexivity|].
  change (String c' ((s +:+ String c "") +:+ t) = String c' (s +:+ String c t)).
  rewrite IH. reflexivity.
Qed.

(** [splitlines] cuts at a newline: the text before it is the first line. *)
Lemma splitlines_from_newline a : ∀ cur b,
  one_line a = true →
  PyStr.splitlines_from cur (a +:+ String PyStr.LF b) = (cur +:+ a) :: PyStr.splitlines b.
Proof.
  induction a as [|c a IH]; intros cur b Ha; simpl in *.
  - rewrite str_app_empty. destruct b; reflexivity.
  - apply andb_true_iff in Ha as [Hc Ha]. apply negb_true_iff in Hc. rewrite Hc.
    rewrite (IH _ _ Ha). f_equal. apply str_app_cons.
Qed.

Lemma splitlines_newline a b :
  one_line a = true →
  PyStr.splitlines (a +:+ String PyStr.LF b) = a :: PyStr.splitlines b.
Proof. intros Ha. apply (splitlines_from_newline a "" b Ha). Qed.

End Decoder.

(** C6: [parse_dahua_api_response] returns, for every input, the mapping in
    which each line of the input is stored under what stands before its first
    '=': a line [k=v] maps [k] to [v] and a line without '=' maps itself to
    itself (of several lines with one key the last is kept), and no other key
    is present.  "key1=value1\nkey2=value2" gives the two entries and
    "standalonekey" the entry of the line under itself. *)
Theorem parse_dahua_api_response_lines :
  (∀ data : string, ∃ d : gmap string string,
      parse_dahua_api_response data = Returns d ∧
      (∀ (l1 : list string) (line : string) (l2 : list string),
          PyStr.splitlines data = (l1 ++ line :: l2)%list →
          Forall (λ l, line_key l ≠ line_key line) l2 →
          (∀ k v, line = k +:+ "=" +:+ v → PyStr.has_char "=" k = false →
                  d !! k = Some v) ∧
          (PyStr.has_char "=" line = false → d !! line = Some line)) ∧
      (∀ k, is_Some (d !! k) →
            ∃ line, line ∈ PyStr.splitlines data ∧ line_key line = k)) ∧
  parse_dahua_api_response ("key1=value1" +:+ nl +:+ "key2=value2")
    = Returns (<["key1" := "value1"]> (<["key2" := "value2"]> ∅)) ∧
  parse_dahua_api_response "standalonekey"
    = Returns (<["standalonekey" := "standalonekey"]> ∅).
Proof.
  split; [|split; vm_compute; reflexivity].
  intros data. exists (foldl store_line ∅ (PyStr.splitlines data)).
  split; [apply parse_lines_store|]. split.
  - intros l1 line l2 Hlines Hlater. rewrite Hlines.
    pose proof (foldl_store_last l1 line l2 ∅ Hlater) as Hlast.
    split.
    + intros k v -> Hk.
      unfold line_key, line_value in Hlast.
      change (k +:+ "=" +:+ v) with (k +:+ String "=" v) in *.
      rewrite (partition_first "=" k v Hk) in Hlast. exact Hlast.
    + intros Hno. unfold line_key, line_value in Hlast.
      rewrite (partition_absent "=" line Hno) in Hlast. exact Hlast.
  - intros k Hk. destruct (foldl_store_keys _ _ _ Hk) as [Hempty | Hline].
    + rewrite lookup_empty in Hempty. destruct Hempty as [? ?]. discriminate.
    + exact Hline.
Qed.

Lemma parse_dahua_api_response_lines_witness :
  ∃ d : gmap string string,
    parse_dahua_api_response ("a=1" +:+ nl +:+ "b" +:+ nl +:+ "a=2=3") = Returns d ∧
    d !! "a" = Some "2=3" ∧ d !! "b" = Some "b".
Proof.
  destruct parse_dahua_api_response_lines as (Hall & _ & _).
  destruct (Hall ("a=1" +:+ nl +:+ "b" +:+ nl +:+ "a=2=3")) as (d & Hd & Hline & _).
  exists d. split; [exact Hd|]. split.
  - destruct (Hline ["a=1"; "b"] "a=2=3" []) as [Hkv _];
      [vm_compute; reflexivity | constructor |].
    apply (Hkv "a" "2=3"); reflexivity.
  - destruct (Hline ["a=1"] "b" ["a=2=3"]) as [_ Hself];
      [vm_compute; reflexivity | |].
    + constructor; [vm_compute; discriminate | constructor].
    + apply Hself. reflexivity.
Defined.

(** ** One-off requests *)

Ltac run_request :=
  unfold try_except, frame, try_finally, close_if_open, mbind, M_bind, mret, M_ret,
    lift, get_local, set_local, raise, DigestAuth.new, DigestAuth.request,
    Resp.raise_for_status, Resp.text, Resp.read, Resp.close, emit, of_outcome,
    sent, released, logged, failed; simpl.

Lemma try_except_raises {S A} (m : M S A) (hs : handlers S A) s e s' :
  m s = (Raises e, s') →
  try_except m hs s =
    match select_handler hs e with Some h => h e s' | None => (Raises e, s') end.
Proof. intros H. unfold try_except. rewrite H. reflexivity. Qed.

Lemma try_except_returns {S A} (m : M S A) (hs : handlers S A) s a s' :
  m s = (Returns a, s') → try_except m hs s = (Returns a, s').
Proof. intros H. unfold try_except. rewrite H. reflexivity. Qed.

Lemma not_below_400 (n : Z) : n < 400 → (400 <=? n) = false.
Proof. intros H. apply Z.leb_gt. exact H. Qed.

Section Requests.

Variable self : DahuaClient.
Variable url : string.
Variable w : world.

Let full : string := _base self +:+ url.
Let answer : exc + response := _session self (requests w) "GET" full.

(** The [try] of [get] up to its [except] clauses. *)
Let get_try : M world (option (gmap string string)) :=
  frame (None : option open_response)
     (try_finally
        (auth ← lift (DigestAuth.new (_username self) (_password self) (_session self));
         response ← lift (DigestAuth.request auth "GET" full);
         set_local (Some response);;
         Resp.raise_for_status response;;
         data ← Resp.text response;
         d ← of_outcome (parse_dahua_api_response data);
         mret (Some d))
        close_if_open).

Let get_bytes_try : M world (option bytes) :=
  frame (None : option open_response)
     (try_finally
        (auth ← lift (DigestAuth.new (_username self) (_password self) (_session self));
         response ← lift (DigestAuth.request auth "GET" full);
         set_local (Some response);;
         Resp.raise_for_status response;;
         b ← Resp.read response;
         mret (Some b))
        close_if_open).

Lemma get_try_fails e :
  fails_with answer e → get_try w = (Raises e, failed w full answer).
Proof.
  subst get_try answer. intros [Hreq | r Hresp Hstatus Htext _]; run_request.
  - rewrite Hreq. reflexivity.
  - rewrite Hresp. simpl. rewrite (not_below_400 _ Hstatus). simpl.
    rewrite Htext. reflexivity.
Qed.

Lemma get_bytes_try_fails e :
  fails_with answer e → get_bytes_try w = (Raises e, failed w full answer).
Proof.
  subst get_bytes_try answer. intros [Hreq | r Hresp Hstatus _ Hread]; run_request.
  - rewrite Hreq. reflexivity.
  - rewrite Hresp. simpl. rewrite (not_below_400 _ Hstatus). simpl.
    rewrite Hread. reflexivity.
Qed.

Lemma get_try_rejected r :
  answer = inr r → 400 <= status r →
  get_try w = (Raises (Raise.ClientResponseError (status r)),
               released (sent w full) (requests w)).
Proof.
  subst get_try answer. intros Hresp Hstatus. run_request.
  rewrite Hresp. simpl. apply Z.leb_le in Hstatus. rewrite Hstatus. reflexivity.
Qed.

Lemma get_try_decoded r body :
  answer = inr r → status r < 400 → text r = inr body →
  get_try w = (Returns (Some (foldl store_line ∅ (PyStr.splitlines body))),
               released (sent w full) (requests w)).
Proof.
  subst get_try answer. intros Hresp Hstatus Htext. run_request.
  rewrite Hresp. simpl. rewrite (not_below_400 _ Hstatus). simpl.
  rewrite Htext. run_request.
  unfold parse_dahua_api_response. rewrite parse_lines_store. reflexivity.
Qed.

(** What [get] makes of a decoded body. *)
Lemma get_decoded r body :
  answer = inr r → status r < 400 → text r = inr body →
  get self url w = (Returns (Some (foldl store_line ∅ (PyStr.splitlines body))),
                    released (sent w full) (requests w)).
Proof.
  intros Hresp Hstatus Htext. unfold get.
  apply try_except_returns. apply (get_try_decoded r body Hresp Hstatus Htext).
Qed.

(** [get] on an exception of the first clause: logged, and [None]. *)
Lemma get_timeout e :
  fails_with answer e → isinstance e asyncio_TimeoutError = true →
  get self url w
  = (Returns None,
     logged (failed w full answer)
            "TimeoutError fetching information from %s - %s" (Some full) e).
Proof.
  intros Hfail Hclass. unfold get.
  rewrite (try_except_raises _ _ _ _ _ (get_try_fails e Hfail)).
  simpl. rewrite Hclass. reflexivity.
Qed.

(** [get] on an exception that only the third clause names: raised again. *)
Lemma get_reraises e :
  fails_with answer e →
  isinstance_any e [aiohttp_ClientError; socket_gaierror] = true →
  isinstance_any e [asyncio_TimeoutError; KeyError; TypeError] = false →
  get self url w = (Raises e, failed w full answer).
Proof.
  intros Hfail Hthird Hearlier. unfold get.
  rewrite (try_except_raises _ _ _ _ _ (get_try_fails e Hfail)).
  simpl in *. apply orb_false_iff in Hearlier as [Htimeout Hparse].
  rewrite Htimeout, Hparse, Hthird. reflexivity.
Qed.

(** [get_bytes] on the same exception: logged, and [None]. *)
Lemma get_bytes_swallows e :
  fails_with answer e →
  isinstance_any e [aiohttp_ClientError; socket_gaierror] = true →
  isinstance_any e [asyncio_TimeoutError; KeyError; TypeError] = false →
  get_bytes self url w
  = (Returns None,
     logged (failed w full answer)
            "Error fetching information from %s - %s" (Some url) e).
Proof.
  intros Hfail Hthird Hearlier. unfold get_bytes.
  rewrite (try_except_raises _ _ _ _ _ (get_bytes_try_fails e Hfail)).
  simpl in *. apply orb_false_iff in Hearlier as [Htimeout Hparse].
  rewrite Htimeout, Hparse, Hthird. reflexivity.
Qed.

End Requests.

(** ** The "set configuration" operations *)

Lemma raise_unless_ok_returns {S} (d : gmap string string) msg (s : S) :
  is_Some (d !! "OK") ∨ is_Some (d !! "ok") →
  raise_unless_ok (Some d) msg s = (Returns tt, s).
Proof.
  intros H. unfold raise_unless_ok, py_in, mbind, M_bind, mret, M_ret. simpl.
  destruct (bool_decide (is_Some (d !! "OK"))) eqn:HOK; simpl; [reflexivity|].
  destruct H as [H | H].
  - apply bool_decide_eq_false in HOK. contradiction.
  - rewrite (bool_decide_eq_true_2 _ H). reflexivity.
Qed.

Lemma raise_unless_ok_raises {S} (d : gmap string string) msg (s : S) :
  d !! "OK" = None → d !! "ok" = None →
  raise_unless_ok (Some d) msg s = (Raises (Raise.Exception_ msg), s).
Proof.
  intros HOK Hok. unfold raise_unless_ok, py_in, mbind, M_bind, mret, M_ret. simpl.
  rewrite !bool_decide_eq_false_2; [reflexivity | |].
  - rewrite Hok. intros [? ?]. discriminate.
  - rewrite HOK. intros [? ?]. discriminate.
Qed.

(** A [None] from [get] (a logged failure) makes the test itself raise. *)
Lemma raise_unless_ok_None {S} msg (s : S) :
  raise_unless_ok None msg s = (Raises Raise.TypeError_not_iterable, s).
Proof. reflexivity. Qed.

Lemma run_set_unfold self op :
  run_set self op = (value ← get self (set_url op); raise_unless_ok value (set_error op)).
Proof. destruct op; reflexivity. Qed.

(** C1, as the code has it: every "set configuration" operation decides on
    the keys of the decoded response, and on two spellings only.  When the
    decoded mapping has the key "OK" or the key "ok" the operation returns
    without error; when it has neither it raises its own exception. *)
Theorem set_configuration_ok_key self op w r body :
  _session self (requests w) "GET" (_base self +:+ set_url op) = inr r →
  status r < 400 →
  text r = inr body →
  ∃ d : gmap string string,
    parse_dahua_api_response body = Returns d ∧
    fst (get self (set_url op) w) = Returns (Some d) ∧
    (is_Some (d !! "OK") ∨ is_Some (d !! "ok") →
       fst (run_set self op w) = Returns tt) ∧
    (d !! "OK" = None → d !! "ok" = None →
       fst (run_set self op w) = Raises (Raise.Exception_ (set_error op))).
Proof.
  intros Hresp Hstatus Htext.
  pose proof (get_decoded self (set_url op) w r body Hresp Hstatus Htext) as Hget.
  exists (foldl store_line ∅ (PyStr.splitlines body)).
  split; [apply parse_lines_store|].
  split; [rewrite Hget; reflexivity|].
  rewrite run_set_unfold. unfold mbind, M_bind. rewrite Hget. split.
  - intros H. rewrite (raise_unless_ok_returns _ _ _ H). reflexivity.
  - intros HOK Hok. rewrite (raise_unless_ok_raises _ _ _ HOK Hok). reflexivity.
Qed.

Lemma set_configuration_ok_key_witness :
  fst (run_set (Sample.client (Sample.answering "ok")) (EnableTimeOverlay 0 true) world0)
    = Returns tt ∧
  fst (run_set (Sample.client (Sample.answering "Error")) (SetChannelTitle 1 "Front" "Door")
               world0)
    = Raises (Raise.Exception_ "Could not set text").
Proof.
  split.
  - destruct (set_configuration_ok_key (Sample.client (Sample.answering "ok"))
                (EnableTimeOverlay 0 true) world0
                (Response 200 (inr "ok") (inr []) [] None) "ok")
      as (d & Hd & _ & Hyes & _); [reflexivity | simpl; lia | reflexivity |].
    apply Hyes. right.
    assert (Returns d = Returns (<["ok" := "ok"]> ∅)) as Hd'
      by (rewrite <- Hd; vm_compute; reflexivity).
    injection Hd' as ->.
    vm_compute. eexists. reflexivity.
  - destruct (set_configuration_ok_key (Sample.client (Sample.answering "Error"))
                (SetChannelTitle 1 "Front" "Door") world0
                (Response 200 (inr "Error") (inr []) [] None) "Error")
      as (d & Hd & _ & _ & Hno); [reflexivity | simpl; lia | reflexivity |].
    assert (Returns d = Returns (<["Error" := "Error"]> ∅)) as Hd'
      by (rewrite <- Hd; vm_compute; reflexivity).
    injection Hd' as ->.
    apply Hno; vm_compute; reflexivity.
Defined.

(** C1, as stated, fails: the body "Ok" decodes to a mapping whose only key
    is "OK" in another letter case, and the operation raises; so does the
    body "result=OK", in which "OK" stands but not as a key. *)
Lemma set_configuration_mixed_case_raises :
  parse_dahua_api_response "Ok" = Returns (<["Ok" := "Ok"]> ∅) ∧
  PyStr.lower "Ok" = PyStr.lower "OK" ∧
  fst (run_set (Sample.client (Sample.answering "Ok")) (SetVideoProfileMode "Night") world0)
    = Raises (Raise.Exception_ "Could not set video profile mode") ∧
  parse_dahua_api_response "result=OK" = Returns (<["result" := "OK"]> ∅) ∧
  fst (run_set (Sample.client (Sample.answering "result=OK")) (EnableChannelTitle 0 true)
               world0)
    = Raises (Raise.Exception_ "Could enable/disable channel title").
Proof. repeat split; vm_compute; reflexivity. Qed.

(** ** Transport failures and timeouts *)

(** C2, as the code has it: on a failure that is an aiohttp client error or
    a [socket.gaierror], and no [asyncio.TimeoutError], [KeyError] or
    [TypeError] (the classes of the two clauses that come first), [get] raises
    the exception again, while [get_bytes] logs it and returns [None]. *)
Theorem transport_error_asymmetry self url w e :
  fails_with (_session self (requests w) "GET" (_base self +:+ url)) e →
  isinstance_any e [aiohttp_ClientError; socket_gaierror] = true →
  isinstance_any e [asyncio_TimeoutError; KeyError; TypeError] = false →
  fst (get self url w) = Raises e ∧
  get_bytes self url w
  = (Returns None,
     logged (failed w (_base self +:+ url)
                    (_session self (requests w) "GET" (_base self +:+ url)))
            "Error fetching information from %s - %s" (Some url) e).
Proof.
  intros Hfail Hthird Hearlier. split.
  - rewrite (get_reraises self url w e Hfail Hthird Hearlier). reflexivity.
  - apply (get_bytes_swallows self url w e Hfail Hthird Hearlier).
Qed.

Lemma transport_error_asymmetry_witness :
  fst (get (Sample.client (Sample.failing Sample.gaierror_))
           "/cgi-bin/magicBox.cgi?action=getSystemInfo" world0)
    = Raises Sample.gaierror_ ∧
  fst (get_bytes (Sample.client (Sample.failing Sample.gaierror_))
                 "/cgi-bin/snapshot.cgi?channel=1" world0)
    = Returns None.
Proof.
  split.
  - apply (transport_error_asymmetry (Sample.client (Sample.failing Sample.gaierror_))
             "/cgi-bin/magicBox.cgi?action=getSystemInfo" world0 Sample.gaierror_);
      [apply fails_in_request; reflexivity | reflexivity | reflexivity].
  - destruct (transport_error_asymmetry (Sample.client (Sample.failing Sample.gaierror_))
                "/cgi-bin/snapshot.cgi?channel=1" world0 Sample.gaierror_) as [_ Hbytes];
      [apply fails_in_request; reflexivity | reflexivity | reflexivity |].
    rewrite Hbytes. reflexivity.
Defined.

(** C2, as stated, fails: aiohttp's [ServerTimeoutError] is a client error,
    yet [get] does not raise it again; the clause for [asyncio.TimeoutError]
    comes first, logs it and lets [get] return [None]. *)
Lemma server_timeout_not_reraised :
  isinstance Sample.ServerTimeoutError_ aiohttp_ClientError = true ∧
  get (Sample.client (Sample.failing Sample.ServerTimeoutError_))
      "/cgi-bin/magicBox.cgi?action=getSystemInfo" world0
  = (Returns None,
     World [NewDigestAuth 0;
            Request 0 0 "GET"
              "http://192.168.1.108:80/cgi-bin/magicBox.cgi?action=getSystemInfo";
            LogError "TimeoutError fetching information from %s - %s"
              (Some "http://192.168.1.108:80/cgi-bin/magicBox.cgi?action=getSystemInfo")
              Sample.ServerTimeoutError_]
           1 1).
Proof. split; vm_compute; reflexivity. Qed.

(** C3: when the request runs out of time, [get] logs the error and does not
    raise, but what it returns is [None] and not an empty mapping; a "set"
    operation that reads the result then fails with a [TypeError]. *)
Theorem get_timeout_returns_None :
  get (Sample.client (Sample.failing Sample.TimeoutError_))
      "/cgi-bin/magicBox.cgi?action=getSystemInfo" world0
  = (Returns None,
     World [NewDigestAuth 0;
            Request 0 0 "GET"
              "http://192.168.1.108:80/cgi-bin/magicBox.cgi?action=getSystemInfo";
            LogError "TimeoutError fetching information from %s - %s"
              (Some "http://192.168.1.108:80/cgi-bin/magicBox.cgi?action=getSystemInfo")
              Sample.TimeoutError_]
           1 1) ∧
  fst (get (Sample.client (Sample.failing Sample.TimeoutError_))
           "/cgi-bin/magicBox.cgi?action=getSystemInfo" world0)
    ≠ Returns (Some ∅) ∧
  fst (run_set (Sample.client (Sample.failing Sample.TimeoutError_))
               (SetVideoProfileMode "Night") world0)
    = Raises Raise.TypeError_not_iterable.
Proof.
  split; [vm_compute; reflexivity|]. split; [|vm_compute; reflexivity].
  vm_compute. discriminate.
Qed.

(** ** Motion detection *)

(** Whatever the camera answers, [get] builds one authenticator, sends one
    request through it, and then only closes and logs. *)
Lemma get_world self url w :
  ∃ tail : list event,
    snd (get self url w)
    = World (trace (sent w (_base self +:+ url)) ++ tail) (S (auths w)) (S (requests w)) ∧
    Forall quiet tail.
Proof.
  unfold get. run_request.
  destruct (_session self (requests w) "GET" (_base self +:+ url)) as [e|r]; simpl.
  - repeat match goal with
           | |- context [if ?b then _ else _] => destruct b; simpl
           end;
      first [ exists []; split; [rewrite app_nil_r; reflexivity | constructor]
            | eexists [_]; split; [reflexivity | repeat constructor] ].
  - destruct (400 <=? status r); simpl.
    + repeat match goal with
             | |- context [if ?b then _ else _] => destruct b; simpl
             end;
        first [ eexists [_]; split; [reflexivity | repeat constructor]
              | eexists [_; _]; split;
                [rewrite <- !app_assoc; reflexivity | repeat constructor] ].
    + destruct (text r) as [e|body]; simpl.
      * repeat match goal with
               | |- context [if ?b then _ else _] => destruct b; simpl
               end;
          first [ eexists [_]; split; [reflexivity | repeat constructor]
                | eexists [_; _]; split;
                  [rewrite <- !app_assoc; reflexivity | repeat constructor] ].
      * unfold parse_dahua_api_response. rewrite parse_lines_store. simpl.
        eexists [_]; split; [reflexivity | repeat constructor].
Qed.

(** C10, as the code has it: when the first response of
    [enable_motion_detection] is a mapping without the key "OK", the operation
    asks [get] for the legacy URL, which is the first one without its
    DetectVersion parameter, and its outcome is that of this second [get]:
    what the second [get] returns is returned as it is, whether or not it
    tells of a success, and what the second [get] raises is raised. *)
Theorem enable_motion_detection_falls_back self enabled w d1 w1 :
  get self (motion_detection_url enabled) w = (Returns (Some d1), w1) →
  d1 !! "OK" = None →
  enable_motion_detection self enabled w
    = get self (motion_detection_legacy_url enabled) w1 ∧
  (∀ response w2,
      get self (motion_detection_legacy_url enabled) w1 = (Returns response, w2) →
      enable_motion_detection self enabled w = (Returns response, w2)) ∧
  (∀ e w2,
      get self (motion_detection_legacy_url enabled) w1 = (Raises e, w2) →
      enable_motion_detection self enabled w = (Raises e, w2)) ∧
  motion_detection_url enabled
    = motion_detection_legacy_url enabled +:+ "&MotionDetect[0].DetectVersion=V3.0" ∧
  Request (auths w1) (requests w1) "GET"
          (_base self +:+ motion_detection_legacy_url enabled)
    ∈ trace (snd (enable_motion_detection self enabled w)).
Proof.
  intros Hfirst HOK.
  assert (enable_motion_detection self enabled w
          = get self (motion_detection_legacy_url enabled) w1) as Hsecond.
  { unfold enable_motion_detection, mbind, M_bind. rewrite Hfirst.
    unfold py_in, mret, M_ret. simpl.
    rewrite bool_decide_eq_false_2 by (rewrite HOK; intros [? ?]; discriminate).
    destruct (get self (motion_detection_legacy_url enabled) w1) as [[v|e] w2];
      reflexivity. }
  split; [exact Hsecond|].
  split; [intros response w2 Hget; rewrite Hsecond; exact Hget|].
  split; [intros e w2 Hget; rewrite Hsecond; exact Hget|].
  split.
  - destruct enabled; reflexivity.
  - rewrite Hsecond.
    destruct (get_world self (motion_detection_legacy_url enabled) w1) as (tail & -> & _).
    simpl. rewrite !elem_of_app. left. right. constructor.
Qed.

Lemma enable_motion_detection_falls_back_witness :
  enable_motion_detection (Sample.client (Sample.answering "Error")) true world0
  = (Returns (Some (<["Error" := "Error"]> ∅)),
     World [NewDigestAuth 0;
            Request 0 0 "GET"
              "http://192.168.1.108:80/cgi-bin/configManager.cgi?action=setConfig&MotionDetect[0].Enable=true&MotionDetect[0].DetectVersion=V3.0";
            Close 0;
            NewDigestAuth 1;
            Request 1 1 "GET"
              "http://192.168.1.108:80/cgi-bin/configManager.cgi?action=setConfig&MotionDetect[0].Enable=true";
            Close 1]
           2 2).
Proof.
  destruct (enable_motion_detection_falls_back
              (Sample.client (Sample.answering "Error")) true world0
              (<["Error" := "Error"]> ∅)
              (World [NewDigestAuth 0;
                      Request 0 0 "GET"
                        "http://192.168.1.108:80/cgi-bin/configManager.cgi?action=setConfig&MotionDetect[0].Enable=true&MotionDetect[0].DetectVersion=V3.0";
                      Close 0] 1 1))
    as (_ & Hreturns & _ & _ & _); [vm_compute; reflexivity | vm_compute; reflexivity |].
  apply Hreturns. vm_compute. reflexivity.
Defined.

(** C10, as stated, fails: the first response has no "OK", the second request
    is answered with the status 500, and [enable_motion_detection] raises the
    [ClientResponseError] of the second [get] where the claim has it return. *)
Lemma enable_motion_detection_second_request_fails :
  enable_motion_detection
    (Sample.client (Sample.in_turn (Response 200 (inr "Error") (inr []) [] None)
                                   (Response 500 (inr "Error") (inr []) [] None)))
    true world0
  = (Raises (Raise.ClientResponseError 500),
     World [NewDigestAuth 0;
            Request 0 0 "GET"
              "http://192.168.1.108:80/cgi-bin/configManager.cgi?action=setConfig&MotionDetect[0].Enable=true&MotionDetect[0].DetectVersion=V3.0";
            Close 0;
            NewDigestAuth 1;
            Request 1 1 "GET"
              "http://192.168.1.108:80/cgi-bin/configManager.cgi?action=setConfig&MotionDetect[0].Enable=true";
            Close 1]
           2 2).
Proof. vm_compute. reflexivity. Qed.

(** ** The event stream *)

Lemma stream_events_without_credentials_run self on_receive events w :
  _username self = None ∨ _password self = None →
  stream_events self on_receive events w = (Returns tt, w).
Proof.
  intros [H | H]; unfold stream_events; rewrite H; [|destruct (_username self)];
    reflexivity.
Qed.

(** C9: without a username or without a password [stream_events] returns at
    once: no request, no call of the handler, no exception, and the world is
    as it was. *)
Theorem stream_events_without_credentials self on_receive events w :
  _username self = None ∨ _password self = None →
  stream_events self on_receive events w = (Returns tt, w).
Proof. apply stream_events_without_credentials_run. Qed.

Lemma stream_events_without_credentials_witness :
  stream_events
    (DahuaClient_init (Some "admin") None "192.168.1.108" 80 554
                      (Sample.answering "Heartbeat"))
    (fun _ => Some Sample.TimeoutError_) ["VideoMotion"] world0
  = (Returns tt, world0).
Proof.
  apply stream_events_without_credentials. right. reflexivity.
Defined.

Lemma iter_chunks_run on_receive ending cs : ∀ w,
  iter_chunks on_receive cs ending w
  = (match stream_result on_receive cs ending with
     | Some e => Raises e
     | None => Returns tt
     end,
     received w (delivered on_receive cs)).
Proof.
  induction cs as [|data rest IH]; intros w; simpl.
  - unfold received. simpl. rewrite app_nil_r. destruct w. destruct ending; reflexivity.
  - unfold mbind, M_bind, emit. simpl. destruct (on_receive data) as [e|].
    + reflexivity.
    + rewrite IH. unfold received. simpl. rewrite <- app_assoc. reflexivity.
Qed.

Section Stream.

Variable self : DahuaClient.
Variable on_receive : bytes -> option exc.
Variable events : list string.
Variable w : world.
Variables username password : string.
Hypothesis Husername : _username self = Some username.
Hypothesis Hpassword : _password self = Some password.

Let url : string := stream_events_url self events.
Let answer : exc + response := _session self (requests w) "GET" url.

(** Every run of [stream_events] with credentials. *)
Lemma stream_events_run :
  stream_events self on_receive events w
  = match answer with
    | inl e => (Raises (surfaced e), sent w url)
    | inr r =>
        if 400 <=? status r
        then (Raises (Raise.ConnectionError_from (Raise.ClientResponseError (status r))),
              released (sent w url) (requests w))
        else (match stream_result on_receive (chunks r) (chunks_end r) with
              | Some e => Raises (surfaced e)
              | None => Returns tt
              end,
              released (received (sent w url) (delivered on_receive (chunks r)))
                       (requests w))
    end.
Proof.
  subst answer url. unfold stream_events. rewrite Husername, Hpassword.
  run_request.
  destruct (_session self (requests w) "GET" (stream_events_url self events)) as [e|r];
    simpl.
  - unfold surfaced. destruct (isinstance e Exception); reflexivity.
  - destruct (400 <=? status r); simpl; [reflexivity|].
    rewrite iter_chunks_run. unfold surfaced, received. simpl.
    destruct (stream_result on_receive (chunks r) (chunks_end r)) as [e|]; simpl;
      [destruct (isinstance e Exception)|]; reflexivity.
Qed.

End Stream.

Lemma closes_app (t1 t2 : list event) :
  closes (t1 ++ t2) = (closes t1 ++ closes t2)%list.
Proof.
  induction t1 as [|ev t1 IH]; simpl; [reflexivity|].
  destruct ev; simpl; rewrite IH; reflexivity.
Qed.

Lemma closes_received datas : closes (OnReceive <$> datas) = [].
Proof. induction datas; simpl; auto. Qed.

(** C5, as the code has it: with credentials, [stream_events] surfaces a
    [ConnectionError] whose cause is the original exception when the exchange
    raises an exception (an instance of [Exception]), when the status is 400 or
    above, which is what [raise_for_status] rejects (the handler is then never
    called), and when reading the chunks or the handler raises one. *)
Theorem stream_events_surfaces_ConnectionError self on_receive events w username password :
  _username self = Some username →
  _password self = Some password →
  (∀ e, _session self (requests w) "GET" (stream_events_url self events) = inl e →
        isinstance e Exception = true →
        stream_events self on_receive events w
        = (Raises (Raise.ConnectionError_from e),
           sent w (stream_events_url self events))) ∧
  (∀ r, _session self (requests w) "GET" (stream_events_url self events) = inr r →
        400 <= status r →
        stream_events self on_receive events w
        = (Raises (Raise.ConnectionError_from (Raise.ClientResponseError (status r))),
           released (sent w (stream_events_url self events)) (requests w)) ∧
        handled (trace (snd (stream_events self on_receive events w)))
        = handled (trace w)) ∧
  (∀ r e, _session self (requests w) "GET" (stream_events_url self events) = inr r →
          status r < 400 →
          stream_result on_receive (chunks r) (chunks_end r) = Some e →
          isinstance e Exception = true →
          fst (stream_events self on_receive events w)
          = Raises (Raise.ConnectionError_from e)).
Proof.
  intros Hu Hp.
  pose proof (stream_events_run self on_receive events w username password Hu Hp) as Hrun.
  simpl in Hrun. split; [|split].
  - intros e Hanswer Hexc. rewrite Hrun, Hanswer. unfold surfaced. rewrite Hexc.
    reflexivity.
  - intros r Hanswer Hstatus. apply Z.leb_le in Hstatus.
    rewrite Hrun, Hanswer, Hstatus. split; [reflexivity|]. simpl.
    clear. induction (trace w) as [|ev t IH]; simpl; [reflexivity|].
    destruct ev; simpl; rewrite IH; reflexivity.
  - intros r e Hanswer Hstatus Hresult Hexc. rewrite Hrun, Hanswer.
    rewrite (not_below_400 _ Hstatus), Hresult. unfold surfaced. rewrite Hexc.
    reflexivity.
Qed.

Lemma stream_events_surfaces_ConnectionError_witness :
  fst (stream_events
         (Sample.client (fun _ _ _ => inr (Response 401 (inr "") (inr []) [[x31]] None)))
         (fun _ => None) ["All"] world0)
    = Raises (Raise.ConnectionError_from (Raise.ClientResponseError 401)) ∧
  fst (stream_events (Sample.client (Sample.failing Sample.gaierror_))
                     (fun _ => None) ["All"] world0)
    = Raises (Raise.ConnectionError_from Sample.gaierror_).
Proof.
  split.
  - destruct (stream_events_surfaces_ConnectionError
                (Sample.client (fun _ _ _ => inr (Response 401 (inr "") (inr []) [[x31]] None)))
                (fun _ => None) ["All"] world0 "admin" "admin" eq_refl eq_refl)
      as (_ & Hstatus & _).
    destruct (Hstatus (Response 401 (inr "") (inr []) [[x31]] None)) as [Hrun _];
      [reflexivity | simpl; lia |].
    rewrite Hrun. reflexivity.
  - destruct (stream_events_surfaces_ConnectionError
                (Sample.client (Sample.failing Sample.gaierror_))
                (fun _ => None) ["All"] world0 "admin" "admin" eq_refl eq_refl)
      as (Hraise & _ & _).
    rewrite (Hraise Sample.gaierror_); reflexivity.
Defined.

(** C5, as stated, fails: on the status 300, which is not 2xx,
    [raise_for_status] lets the response through; the loop is entered, the
    handler is called on the chunk, and the call returns without an
    exception. *)
Lemma stream_events_enters_loop_on_300 :
  stream_events
    (Sample.client (fun _ _ _ => inr (Response 300 (inr "") (inr []) [[x31]] None)))
    (fun _ => None) ["All"] world0
  = (Returns tt,
     World [NewDigestAuth 0;
            Request 0 0 "GET"
              "http://192.168.1.108:80/cgi-bin/eventManager.cgi?action=attach&codes=[All]&heartbeat=2";
            OnReceive [x31];
            Close 0]
           1 1).
Proof. vm_compute. reflexivity. Qed.

(** C7: a call of [stream_events] that got a response closes it exactly
    once, however the call ends: the chunks run out, the status is rejected,
    the transport or the handler raises, or the task is cancelled. *)
Theorem stream_events_releases_once self on_receive events w username password r :
  _username self = Some username →
  _password self = Some password →
  _session self (requests w) "GET" (stream_events_url self events) = inr r →
  ∃ evs : list event,
    trace (snd (stream_events self on_receive events w)) = (trace w ++ evs)%list ∧
    closes evs = [requests w].
Proof.
  intros Hu Hp Hanswer.
  rewrite (stream_events_run self on_receive events w username password Hu Hp).
  simpl. rewrite Hanswer. destruct (400 <=? status r); simpl.
  - eexists. rewrite <- !app_assoc. split; [reflexivity|]. reflexivity.
  - eexists. rewrite <- !app_assoc. split; [reflexivity|]. simpl.
    rewrite closes_app, closes_received. reflexivity.
Qed.

Lemma stream_events_releases_once_witness :
  ∃ evs : list event,
    stream_events
      (Sample.client
         (fun _ _ _ => inr (Response 200 (inr "") (inr []) [[x31]; [x32]]
                                     (Some Sample.CancelledError_))))
      (fun _ => None) ["VideoMotion"] world0
    = (Raises Sample.CancelledError_, World evs 1 1) ∧
    closes evs = [0%nat].
Proof.
  destruct (stream_events_releases_once
              (Sample.client
                 (fun _ _ _ => inr (Response 200 (inr "") (inr []) [[x31]; [x32]]
                                             (Some Sample.CancelledError_))))
              (fun _ => None) ["VideoMotion"] world0 "admin" "admin"
              (Response 200 (inr "") (inr []) [[x31]; [x32]] (Some Sample.CancelledError_))
              eq_refl eq_refl eq_refl) as (evs & Htrace & Hcloses).
  exists evs. split; [|exact Hcloses].
  simpl in Htrace. rewrite <- Htrace. vm_compute. reflexivity.
Defined.

(** With credentials and no response (the exchange raised), nothing is there
    to close and nothing is closed. *)
Lemma stream_events_nothing_to_release self on_receive events w username password e :
  _username self = Some username →
  _password self = Some password →
  _session self (requests w) "GET" (stream_events_url self events) = inl e →
  ∃ evs : list event,
    trace (snd (stream_events self on_receive events w)) = (trace w ++ evs)%list ∧
    closes evs = [].
Proof.
  intros Hu Hp Hanswer.
  rewrite (stream_events_run self on_receive events w username password Hu Hp).
  simpl. rewrite Hanswer. simpl.
  eexists. rewrite <- !app_assoc. split; reflexivity.
Qed.

(** ** Authenticators *)

Lemma created_app (t1 t2 : list event) :
  created (t1 ++ t2) = (created t1 ++ created t2)%list.
Proof.
  induction t1 as [|ev t1 IH]; simpl; [reflexivity|].
  destruct ev; simpl; rewrite IH; reflexivity.
Qed.

Lemma used_app (t1 t2 : list event) : used (t1 ++ t2) = (used t1 ++ used t2)%list.
Proof.
  induction t1 as [|ev t1 IH]; simpl; [reflexivity|].
  destruct ev; simpl; rewrite IH; reflexivity.
Qed.

Lemma quiet_created_used (t : list event) : Forall quiet t → created t = [] ∧ used t = [].
Proof.
  induction 1 as [|ev t Hev _ [IHc IHu]]; [split; reflexivity|].
  destruct ev; simpl in *; try contradiction; split; assumption.
Qed.

Lemma get_bytes_world self url w :
  ∃ tail : list event,
    snd (get_bytes self url w)
    = World (trace (sent w (_base self +:+ url)) ++ tail) (S (auths w)) (S (requests w)) ∧
    Forall quiet tail.
Proof.
  unfold get_bytes. run_request.
  destruct (_session self (requests w) "GET" (_base self +:+ url)) as [e|r]; simpl.
  - repeat match goal with
           | |- context [if ?b then _ else _] => destruct b; simpl
           end;
      first [ exists []; split; [rewrite app_nil_r; reflexivity | constructor]
            | eexists [_]; split; [reflexivity | repeat constructor] ].
  - destruct (400 <=? status r); simpl.
    + repeat match goal with
             | |- context [if ?b then _ else _] => destruct b; simpl
             end;
        first [ eexists [_]; split; [reflexivity | repeat constructor]
              | eexists [_; _]; split;
                [rewrite <- !app_assoc; reflexivity | repeat constructor] ].
    + destruct (read r) as [e|body]; simpl.
      * repeat match goal with
               | |- context [if ?b then _ else _] => destruct b; simpl
               end;
          first [ eexists [_]; split; [reflexivity | repeat constructor]
                | eexists [_; _]; split;
                  [rewrite <- !app_assoc; reflexivity | repeat constructor] ].
      * eexists [_]; split; [reflexivity | repeat constructor].
Qed.

Lemma quiet_received datas : Forall quiet (OnReceive <$> datas).
Proof. induction datas; simpl; constructor; simpl; auto. Qed.

Lemma stream_events_world self on_receive events w :
  snd (stream_events self on_receive events w) = w ∨
  ∃ tail : list event,
    snd (stream_events self on_receive events w)
    = World (trace (sent w (stream_events_url self events)) ++ tail)
            (S (auths w)) (S (requests w)) ∧
    Forall quiet tail.
Proof.
  destruct (_username self) as [username|] eqn:Hu;
    [destruct (_password self) as [password|] eqn:Hp|].
  - right. rewrite (stream_events_run self on_receive events w username password Hu Hp).
    simpl.
    destruct (_session self (requests w) "GET" (stream_events_url self events)) as [e|r];
      simpl.
    + exists []. split; [rewrite app_nil_r; reflexivity | constructor].
    + destruct (400 <=? status r); simpl.
      * eexists [_]. split; [reflexivity | repeat constructor].
      * exists ((OnReceive <$> delivered on_receive (chunks r))
                  ++ [Close (requests w)])%list.
        split; [unfold released, received, sent; simpl;
                rewrite <- !app_assoc; reflexivity|].
        apply Forall_app. split; [apply quiet_received | repeat constructor].
  - left. rewrite stream_events_without_credentials_run; auto.
  - left. rewrite stream_events_without_credentials_run; auto.
Qed.

(** One call either leaves the authenticators alone or builds one and sends
    one request through it. *)
Lemma after_call_authenticators self w c :
  let w' := after_call self w c in
  (w' = w) ∨
  (created (trace w') = (created (trace w) ++ [auths w])%list ∧
   used (trace w') = (used (trace w) ++ [auths w])%list ∧
   auths w' = S (auths w)).
Proof.
  assert (∀ full tail w', w' = World (trace (sent w full) ++ tail) (S (auths w))
                                     (S (requests w)) →
                          Forall quiet tail →
          created (trace w') = (created (trace w) ++ [auths w])%list ∧
          used (trace w') = (used (trace w) ++ [auths w])%list ∧
          auths w' = S (auths w)) as Hstep.
  { intros full tail w' -> Hquiet. destruct (quiet_created_used tail Hquiet) as [Hc Hu].
    simpl. rewrite !created_app, !used_app, Hc, Hu. simpl.
    rewrite !app_nil_r. auto. }
  destruct c as [url|url|on_receive events]; simpl.
  - right. destruct (get_world self url w) as (tail & Hw & Hquiet). eauto.
  - right. destruct (get_bytes_world self url w) as (tail & Hw & Hquiet). eauto.
  - destruct (stream_events_world self on_receive events w) as [Hsame | (tail & Hw & Hquiet)];
      [left; exact Hsame | right; eauto].
Qed.

Lemma after_calls_authenticators self calls : ∀ w,
  created (trace w) = seq 0 (auths w) →
  used (trace w) = seq 0 (auths w) →
  created (trace (after_calls self w calls)) = seq 0 (auths (after_calls self w calls)) ∧
  used (trace (after_calls self w calls)) = seq 0 (auths (after_calls self w calls)).
Proof.
  induction calls as [|c rest IH]; intros w Hc Hu; simpl; [split; assumption|].
  apply IH;
    destruct (after_call_authenticators self w c) as [-> | (Hc' & Hu' & Ha)];
    try assumption.
  - rewrite Hc', Ha, Hc, seq_S. reflexivity.
  - rewrite Hu', Ha, Hu, seq_S. reflexivity.
Qed.

(** C4, as the code has it: the client keeps no authenticator; each call of
    [get], [get_bytes] and [stream_events] that sends a request builds a new
    one for it.  Over any sequence of calls the authenticators the requests
    went through are those built, one per request and no two the same. *)
Theorem fresh_authenticator_per_request self calls :
  used (trace (after_calls self world0 calls))
    = created (trace (after_calls self world0 calls)) ∧
  NoDup (used (trace (after_calls self world0 calls))).
Proof.
  destruct (after_calls_authenticators self calls world0) as [Hc Hu];
    [reflexivity | reflexivity |].
  rewrite Hu, Hc. split; [reflexivity | apply NoDup_seq].
Qed.

(** C4, as stated, fails: two requests of one client go through two
    authenticators, not through one that the client owns. *)
Lemma two_requests_two_authenticators :
  used (trace (after_calls (Sample.client (Sample.answering "OK")) world0
                 [CallGet "/cgi-bin/magicBox.cgi?action=getSystemInfo";
                  CallGetBytes "/cgi-bin/snapshot.cgi?channel=1"]))
    = [0; 1]%nat ∧
  ¬ ∃ a : nat,
      Forall (eq a)
        (used (trace (after_calls (Sample.client (Sample.answering "OK")) world0
                        [CallGet "/cgi-bin/magicBox.cgi?action=getSystemInfo";
                         CallGetBytes "/cgi-bin/snapshot.cgi?channel=1"]))).
Proof.
  assert (used (trace (after_calls (Sample.client (Sample.answering "OK")) world0
                 [CallGet "/cgi-bin/magicBox.cgi?action=getSystemInfo";
                  CallGetBytes "/cgi-bin/snapshot.cgi?channel=1"]))
          = [0; 1]%nat) as Hused by (vm_compute; reflexivity).
  split; [exact Hused|]. rewrite Hused. intros [a Hall].
  inversion Hall as [|? ? H0 Hrest]; subst.
  inversion Hrest as [|? ? H1 _]; subst. discriminate.
Qed.


(** * Further properties of the client *)

(** ** What the one-off requests return and raise *)

Ltac raised_class :=
  let Heq := fresh "Heq" in
  intros Heq; try discriminate Heq; injection Heq as <-;
  repeat match goal with
         | H : isinstance _ _ = _ |- _ => rewrite H
         end;
  try reflexivity; congruence.

Ltac run_handlers e :=
  repeat match goal with
         | |- context [isinstance e ?c] =>
             let H := fresh "Hclass" in destruct (isinstance e c) eqn:H; simpl
         end.

Lemma ClientResponseError_classes (status : Z) :
  isinstance (Raise.ClientResponseError status) asyncio_TimeoutError = false ∧
  isinstance (Raise.ClientResponseError status) KeyError = false ∧
  isinstance (Raise.ClientResponseError status) TypeError = false ∧
  isinstance (Raise.ClientResponseError status) aiohttp_ClientError = true.
Proof. repeat split; reflexivity. Qed.

(** X1: [get_bytes] never raises an [Exception]: it returns the body when the
    status is below 400 and the body can be read, and [None] in every other
    case. *)
Theorem get_bytes_never_raises self url w :
  (∀ e, _session self (requests w) "GET" (_base self +:+ url) = inl e →
        isinstance e Exception = true) →
  (∀ r e, _session self (requests w) "GET" (_base self +:+ url) = inr r →
          read r = inl e → isinstance e Exception = true) →
  fst (get_bytes self url w)
  = Returns match _session self (requests w) "GET" (_base self +:+ url) with
            | inr r =>
                if 400 <=? status r then None
                else match read r with inr body => Some body | inl _ => None end
            | inl _ => None
            end.
Proof.
  intros Hrequest Hread. unfold get_bytes. run_request.
  destruct (_session self (requests w) "GET" (_base self +:+ url)) as [e|r] eqn:Hanswer;
    simpl.
  - rewrite (Hrequest e eq_refl). run_handlers e; reflexivity.
  - destruct (400 <=? status r); simpl; [reflexivity|].
    destruct (read r) as [e|body] eqn:Hbody; simpl; [|reflexivity].
    rewrite (Hread r e eq_refl Hbody). run_handlers e; reflexivity.
Qed.

Lemma get_bytes_never_raises_witness :
  fst (get_bytes (Sample.client (Sample.failing Sample.TimeoutError_))
                 "/cgi-bin/snapshot.cgi?channel=1" world0)
  = Returns None.
Proof.
  rewrite (get_bytes_never_raises (Sample.client (Sample.failing Sample.TimeoutError_))
             "/cgi-bin/snapshot.cgi?channel=1" world0).
  - reflexivity.
  - intros e [= <-]. reflexivity.
  - intros r e [=].
Defined.

(** X2: the only exceptions [get] lets out, among the [Exception]s, are aiohttp
    client errors and [socket.gaierror]s: whatever it raises is one of them. *)
Theorem get_raises_only_client_errors self url w e :
  (∀ e0, _session self (requests w) "GET" (_base self +:+ url) = inl e0 →
         isinstance e0 Exception = true) →
  (∀ r e0, _session self (requests w) "GET" (_base self +:+ url) = inr r →
           text r = inl e0 → isinstance e0 Exception = true) →
  fst (get self url w) = Raises e →
  isinstance_any e [aiohttp_ClientError; socket_gaierror] = true.
Proof.
  intros Hrequest Htext. unfold get. run_request.
  destruct (_session self (requests w) "GET" (_base self +:+ url)) as [e0|r] eqn:Hanswer;
    simpl.
  - pose proof (Hrequest e0 eq_refl) as Hexc.
    run_handlers e0; raised_class.
  - destruct (400 <=? status r); simpl.
    + intros [= <-]. reflexivity.
    + destruct (text r) as [e0|body] eqn:Hbody; simpl.
      * pose proof (Htext r e0 eq_refl Hbody) as Hexc.
        run_handlers e0; raised_class.
      * unfold parse_dahua_api_response. rewrite parse_lines_store. simpl.
        intros [=].
Qed.

Lemma get_raises_only_client_errors_witness :
  isinstance_any Sample.gaierror_ [aiohttp_ClientError; socket_gaierror] = true.
Proof.
  apply (get_raises_only_client_errors (Sample.client (Sample.failing Sample.gaierror_))
           "/cgi-bin/magicBox.cgi?action=getVendor" world0 Sample.gaierror_).
  - intros e0 [= <-]. reflexivity.
  - intros r e0 [=].
  - vm_compute. reflexivity.
Defined.

Lemma http_error_status_run self url w r :
  _session self (requests w) "GET" (_base self +:+ url) = inr r →
  400 <= status r →
  get self url w
  = (Raises (Raise.ClientResponseError (status r)),
     released (sent w (_base self +:+ url)) (requests w)) ∧
  get_bytes self url w
  = (Returns None,
     logged (released (sent w (_base self +:+ url)) (requests w))
            "Error fetching information from %s - %s" (Some url)
            (Raise.ClientResponseError (status r))).
Proof.
  intros Hanswer Hstatus. apply Z.leb_le in Hstatus.
  split; [unfold get | unfold get_bytes]; run_request;
    rewrite Hanswer; simpl; rewrite Hstatus; reflexivity.
Qed.

(** X3: on a status of 400 or above both paths close the response; [get]
    raises the [ClientResponseError] of [raise_for_status] to its caller, and
    [get_bytes] logs it and returns [None]. *)
Theorem http_error_status self url w r :
  _session self (requests w) "GET" (_base self +:+ url) = inr r →
  400 <= status r →
  get self url w
  = (Raises (Raise.ClientResponseError (status r)),
     released (sent w (_base self +:+ url)) (requests w)) ∧
  get_bytes self url w
  = (Returns None,
     logged (released (sent w (_base self +:+ url)) (requests w))
            "Error fetching information from %s - %s" (Some url)
            (Raise.ClientResponseError (status r))).
Proof. apply http_error_status_run. Qed.

Lemma http_error_status_witness :
  fst (get (Sample.client (fun _ _ _ => inr (Response 401 (inr "") (inr []) [] None)))
           "/cgi-bin/magicBox.cgi?action=getVendor" world0)
    = Raises (Raise.ClientResponseError 401) ∧
  fst (get_bytes (Sample.client (fun _ _ _ => inr (Response 401 (inr "") (inr []) [] None)))
                 "/cgi-bin/magicBox.cgi?action=getVendor" world0)
    = Returns None.
Proof.
  destruct (http_error_status
              (Sample.client (fun _ _ _ => inr (Response 401 (inr "") (inr []) [] None)))
              "/cgi-bin/magicBox.cgi?action=getVendor" world0
              (Response 401 (inr "") (inr []) [] None)) as [Hget Hbytes];
    [reflexivity | simpl; lia |].
  rewrite Hget, Hbytes. split; reflexivity.
Defined.

(** X4: on a status below 400 with a readable body, [get] returns the mapping
    that [parse_dahua_api_response] makes of the body; it has built one
    authenticator, sent one request and closed the response, and logged
    nothing. *)
Theorem get_returns_decoded_body self url w r body :
  _session self (requests w) "GET" (_base self +:+ url) = inr r →
  status r < 400 →
  text r = inr body →
  ∃ d : gmap string string,
    parse_dahua_api_response body = Returns d ∧
    get self url w
    = (Returns (Some d),
       World (trace w ++ [NewDigestAuth (auths w);
                          Request (auths w) (requests w) "GET" (_base self +:+ url);
                          Close (requests w)])
             (S (auths w)) (S (requests w))).
Proof.
  intros Hanswer Hstatus Htext.
  exists (foldl store_line ∅ (PyStr.splitlines body)).
  split; [apply parse_lines_store|].
  rewrite (get_decoded self url w r body Hanswer Hstatus Htext).
  unfold released, sent. simpl. rewrite <- !app_assoc. reflexivity.
Qed.

Lemma get_returns_decoded_body_witness :
  ∃ d : gmap string string,
    d !! "vendor" = Some "Dahua" ∧
    fst (get (Sample.client (Sample.answering "vendor=Dahua"))
             "/cgi-bin/magicBox.cgi?action=getVendor" world0)
    = Returns (Some d).
Proof.
  destruct (get_returns_decoded_body (Sample.client (Sample.answering "vendor=Dahua"))
              "/cgi-bin/magicBox.cgi?action=getVendor" world0
              (Response 200 (inr "vendor=Dahua") (inr []) [] None) "vendor=Dahua")
    as (d & Hd & Hget); [reflexivity | simpl; lia | reflexivity |].
  exists d. split; [|rewrite Hget; reflexivity].
  assert (Returns d = Returns (<["vendor" := "Dahua"]> ∅)) as Hd'
    by (rewrite <- Hd; vm_compute; reflexivity).
  injection Hd' as ->. vm_compute. reflexivity.
Defined.

(** X5: a "set configuration" operation that meets a status of 400 or above
    raises the [ClientResponseError] of the request, not its own exception. *)
Theorem set_configuration_http_error self op w r :
  _session self (requests w) "GET" (_base self +:+ set_url op) = inr r →
  400 <= status r →
  run_set self op w
  = (Raises (Raise.ClientResponseError (status r)),
     released (sent w (_base self +:+ set_url op)) (requests w)).
Proof.
  intros Hanswer Hstatus.
  destruct (http_error_status_run self (set_url op) w r Hanswer Hstatus) as [Hget _].
  rewrite run_set_unfold. unfold mbind, M_bind. rewrite Hget. reflexivity.
Qed.

Lemma set_configuration_http_error_witness :
  fst (run_set (Sample.client (fun _ _ _ => inr (Response 500 (inr "OK") (inr []) [] None)))
               (EnableTimeOverlay 1 false) world0)
  = Raises (Raise.ClientResponseError 500).
Proof.
  rewrite (set_configuration_http_error
             (Sample.client (fun _ _ _ => inr (Response 500 (inr "OK") (inr []) [] None)))
             (EnableTimeOverlay 1 false) world0
             (Response 500 (inr "OK") (inr []) [] None));
    [reflexivity | reflexivity | simpl; lia].
Defined.

(** ** Decoding what a camera sends *)

Lemma str_app_assoc (a b c : string) : (a +:+ b) +:+ c = a +:+ (b +:+ c).
Proof.
  induction a as [|x a IH]; [reflexivity|].
  change (String x ((a +:+ b) +:+ c) = String x (a +:+ (b +:+ c))). rewrite IH.
  reflexivity.
Qed.

Lemma one_line_app (a b : string) : one_line (a +:+ b) = one_line a && one_line b.
Proof.
  induction a as [|x a IH]; [reflexivity|].
  change (negb (PyStr.is_linebreak x) && one_line (a +:+ b)
          = negb (PyStr.is_linebreak x) && one_line a && one_line b).
  rewrite IH. apply andb_assoc.
Qed.

(** A "\r\n" pair ends a line as a newline does. *)
Lemma splitlines_from_crlf a : ∀ cur b,
  one_line a = true →
  PyStr.splitlines_from cur (a +:+ String PyStr.CR (String PyStr.LF b))
  = (cur +:+ a) :: PyStr.splitlines b.
Proof.
  induction a as [|c a IH]; intros cur b Ha; simpl in *.
  - rewrite str_app_empty. reflexivity.
  - apply andb_true_iff in Ha as [Hc Ha]. apply negb_true_iff in Hc. rewrite Hc.
    rewrite (IH _ _ Ha). f_equal. apply str_app_cons.
Qed.

Lemma splitlines_render (entries : list (string * string)) :
  Forall (λ entry, plain_entry entry.1 entry.2) entries →
  PyStr.splitlines (render entries) = entry_line <$> entries.
Proof.
  induction 1 as [|[k v] rest (Hk & Heq & Hv) _ IH]; [reflexivity|].
  simpl in *.
  change (k +:+ "=" +:+ v +:+ nl +:+ render rest)
    with (k +:+ ("=" +:+ (v +:+ String PyStr.LF (render rest)))).
  rewrite <- (str_app_assoc "=" v), <- (str_app_assoc k).
  rewrite splitlines_newline; [rewrite IH; reflexivity|].
  rewrite !one_line_app, Hk, Hv. reflexivity.
Qed.

Lemma store_entry_line d (entry : string * string) :
  PyStr.has_char "=" entry.1 = false →
  store_line d (entry_line entry) = <[entry.1 := entry.2]> d.
Proof.
  intros Heq. unfold store_line, line_key, line_value, entry_line.
  change (entry.1 +:+ "=" +:+ entry.2) with (entry.1 +:+ String "=" entry.2).
  rewrite (partition_first "=" _ _ Heq). reflexivity.
Qed.

Lemma foldl_store_entries (entries : list (string * string)) : ∀ d,
  Forall (λ entry, plain_entry entry.1 entry.2) entries →
  foldl store_line d (entry_line <$> entries)
  = list_to_map (reverse entries) ∪ d.
Proof.
  induction entries as [|[k v] rest IH]; intros d Hall; simpl.
  - rewrite (left_id_L ∅ (∪)). reflexivity.
  - inversion Hall as [|? ? (Hk & Heq & Hv) Hrest]; subst.
    rewrite (store_entry_line d (k, v) Heq). simpl.
    rewrite (IH _ Hrest), reverse_cons, list_to_map_app. simpl.
    rewrite <- (assoc_L (∪)). f_equal.
    rewrite insert_empty, <- insert_union_singleton_l. reflexivity.
Qed.

(** X6: decoding undoes the text form of a mapping.  When no key or value of
    a mapping holds a line boundary and no key holds '=', the lines [k=v] of
    its entries decode to the mapping itself. *)
Theorem parse_render_round_trip (m : gmap string string) :
  map_Forall plain_entry m →
  parse_dahua_api_response (render (map_to_list m)) = Returns m.
Proof.
  intros Hplain.
  assert (Forall (λ entry, plain_entry entry.1 entry.2) (map_to_list m)) as Hall.
  { apply Forall_forall. intros [k v] Hin. apply elem_of_map_to_list in Hin.
    exact (Hplain k v Hin). }
  unfold parse_dahua_api_response.
  rewrite parse_lines_store, (splitlines_render _ Hall), (foldl_store_entries _ _ Hall).
  rewrite (right_id_L ∅ (∪)). f_equal.
  rewrite <- (list_to_map_to_list m) at 2.
  apply list_to_map_proper; [|apply reverse_Permutation].
  rewrite fmap_reverse, reverse_Permutation. apply NoDup_fst_map_to_list.
Qed.

Lemma parse_render_round_trip_witness :
  parse_dahua_api_response
    (render (map_to_list (<["name" := "FrontDoorCam"]> (<["x" := "a=b"]> ∅))))
  = Returns (<["name" := "FrontDoorCam"]> (<["x" := "a=b"]> ∅)).
Proof.
  apply parse_render_round_trip.
  apply map_Forall_insert_2; [repeat split; reflexivity|].
  apply map_Forall_insert_2; [repeat split; reflexivity|].
  apply map_Forall_empty.
Defined.

(** X7: a body with "\r\n" after its first line decodes as the same body
    with a newline there. *)
Theorem parse_crlf_as_newline (a b : string) :
  one_line a = true →
  parse_dahua_api_response (a +:+ String PyStr.CR (String PyStr.LF b))
  = parse_dahua_api_response (a +:+ String PyStr.LF b).
Proof.
  intros Ha. unfold parse_dahua_api_response, PyStr.splitlines.
  rewrite (splitlines_from_crlf a "" b Ha), (splitlines_from_newline a "" b Ha).
  reflexivity.
Qed.

Lemma parse_crlf_as_newline_witness :
  parse_dahua_api_response
    ("name=Cam" +:+ String PyStr.CR (String PyStr.LF "vendor=Dahua"))
  = parse_dahua_api_response ("name=Cam" +:+ String PyStr.LF "vendor=Dahua").
Proof. apply parse_crlf_as_newline. reflexivity. Defined.

(** ** The event stream, chunk by chunk *)

Lemma handled_app (t1 t2 : list event) :
  handled (t1 ++ t2) = (handled t1 ++ handled t2)%list.
Proof.
  induction t1 as [|ev t1 IH]; simpl; [reflexivity|].
  destruct ev; simpl; rewrite IH; reflexivity.
Qed.

Lemma handled_received datas : handled (OnReceive <$> datas) = datas.
Proof. induction datas as [|d rest IH]; simpl; [reflexivity | f_equal; exact IH]. Qed.

Lemma used_received datas : used (OnReceive <$> datas) = [].
Proof. induction datas; simpl; auto. Qed.

Lemma delivered_all on_receive (cs : list bytes) :
  Forall (λ data, on_receive data = None) cs → delivered on_receive cs = cs.
Proof.
  induction 1 as [|data rest Hdata _ IH]; simpl; [reflexivity|].
  rewrite Hdata, IH. reflexivity.
Qed.

(** X8: with credentials and a status below 400, [stream_events] sends one
    request and hands the chunks to the handler one by one, in the order of
    the transport, up to and with the first chunk the handler raises on; a
    handler that never raises gets every chunk once. *)
Theorem stream_events_delivers_in_order self on_receive events w username password r :
  _username self = Some username →
  _password self = Some password →
  _session self (requests w) "GET" (stream_events_url self events) = inr r →
  status r < 400 →
  ∃ evs : list event,
    trace (snd (stream_events self on_receive events w)) = (trace w ++ evs)%list ∧
    used evs = [auths w] ∧
    handled evs = delivered on_receive (chunks r) ∧
    (Forall (λ data, on_receive data = None) (chunks r) → handled evs = chunks r).
Proof.
  intros Hu Hp Hanswer Hstatus.
  rewrite (stream_events_run self on_receive events w username password Hu Hp).
  simpl. rewrite Hanswer, (not_below_400 _ Hstatus). simpl.
  exists ([NewDigestAuth (auths w);
           Request (auths w) (requests w) "GET" (stream_events_url self events)]
          ++ (OnReceive <$> delivered on_receive (chunks r))
          ++ [Close (requests w)])%list.
  assert (handled ([NewDigestAuth (auths w);
                    Request (auths w) (requests w) "GET" (stream_events_url self events)]
                   ++ (OnReceive <$> delivered on_receive (chunks r))
                   ++ [Close (requests w)])%list
          = delivered on_receive (chunks r)) as Hhandled.
  { simpl. rewrite handled_app, handled_received. simpl. apply app_nil_r. }
  split; [rewrite <- !app_assoc; reflexivity|]. split; [|split].
  - simpl. rewrite used_app, used_received. reflexivity.
  - exact Hhandled.
  - intros Hall. rewrite Hhandled. apply delivered_all, Hall.
Qed.

Lemma stream_events_delivers_in_order_witness :
  ∃ evs : list event,
    trace (snd (stream_events
                  (Sample.client
                     (fun _ _ _ => inr (Response 200 (inr "") (inr []) [[x31]; [x32]] None)))
                  (fun _ => None) ["All"] world0)) = evs ∧
    handled evs = [[x31]; [x32]].
Proof.
  destruct (stream_events_delivers_in_order
              (Sample.client
                 (fun _ _ _ => inr (Response 200 (inr "") (inr []) [[x31]; [x32]] None)))
              (fun _ => None) ["All"] world0 "admin" "admin"
              (Response 200 (inr "") (inr []) [[x31]; [x32]] None)
              eq_refl eq_refl eq_refl) as (evs & Htrace & _ & _ & Hall); [simpl; lia|].
  exists evs. split; [exact Htrace|]. apply Hall. repeat constructor.
Defined.

(** X9: an exception that is no [Exception] (a cancellation) leaves
    [stream_events] as it is, not wrapped in a [ConnectionError], and the
    response is closed before it does. *)
Theorem stream_events_cancellation_unwrapped self on_receive events w username password r e :
  _username self = Some username →
  _password self = Some password →
  _session self (requests w) "GET" (stream_events_url self events) = inr r →
  status r < 400 →
  stream_result on_receive (chunks r) (chunks_end r) = Some e →
  isinstance e Exception = false →
  stream_events self on_receive events w
  = (Raises e,
     released (received (sent w (stream_events_url self events))
                        (delivered on_receive (chunks r)))
              (requests w)).
Proof.
  intros Hu Hp Hanswer Hstatus Hresult Hexc.
  rewrite (stream_events_run self on_receive events w username password Hu Hp).
  simpl. rewrite Hanswer, (not_below_400 _ Hstatus), Hresult.
  unfold surfaced. rewrite Hexc. reflexivity.
Qed.

Lemma stream_events_cancellation_unwrapped_witness :
  fst (stream_events
         (Sample.client
            (fun _ _ _ => inr (Response 200 (inr "") (inr []) [[x31]]
                                        (Some Sample.CancelledError_))))
         (fun _ => None) ["All"] world0)
  = Raises Sample.CancelledError_.
Proof.
  rewrite (stream_events_cancellation_unwrapped
             (Sample.client
                (fun _ _ _ => inr (Response 200 (inr "") (inr []) [[x31]]
                                            (Some Sample.CancelledError_))))
             (fun _ => None) ["All"] world0 "admin" "admin"
             (Response 200 (inr "") (inr []) [[x31]] (Some Sample.CancelledError_))
             Sample.CancelledError_ eq_refl eq_refl eq_refl);
    [reflexivity | simpl; lia | reflexivity | reflexivity].
Defined.

(** ** Motion detection, accepted at once *)

(** X10: when the first response of [enable_motion_detection] has the key
    "OK", the operation returns it and sends no second request. *)
Theorem enable_motion_detection_accepted self enabled w d1 w1 :
  get self (motion_detection_url enabled) w = (Returns (Some d1), w1) →
  is_Some (d1 !! "OK") →
  enable_motion_detection self enabled w = (Returns (Some d1), w1) ∧
  requests w1 = S (requests w).
Proof.
  intros Hfirst HOK. split.
  - unfold enable_motion_detection, mbind, M_bind. rewrite Hfirst.
    unfold py_in, mret, M_ret. simpl.
    rewrite (bool_decide_eq_true_2 _ HOK). reflexivity.
  - destruct (get_world self (motion_detection_url enabled) w) as (tail & Hw & _).
    rewrite Hfirst in Hw. simpl in Hw. rewrite Hw. reflexivity.
Qed.

Lemma enable_motion_detection_accepted_witness :
  enable_motion_detection (Sample.client (Sample.answering "OK")) false world0
  = (Returns (Some (<["OK" := "OK"]> ∅)),
     World [NewDigestAuth 0;
            Request 0 0 "GET"
              "http://192.168.1.108:80/cgi-bin/configManager.cgi?action=setConfig&MotionDetect[0].Enable=false&MotionDetect[0].DetectVersion=V3.0";
            Close 0]
           1 1).
Proof.
  apply (enable_motion_detection_accepted (Sample.client (Sample.answering "OK")) false
           world0).
  - vm_compute. reflexivity.
  - vm_compute. eexists. reflexivity.
Defined.

(** ** Stream names, subtypes and stream URLs *)

(** X11: [to_subtype] only returns 0 or 1 and [to_stream_name] only "Main" or
    "Sub"; a subtype comes back from its stream name exactly when it is 0 or
    1, and a stream name from its subtype exactly when it is "Main" or
    "Sub". *)
Theorem stream_names_and_subtypes :
  (∀ s : string, to_subtype s = 0 ∨ to_subtype s = 1) ∧
  (∀ n : Z, to_stream_name n = "Main" ∨ to_stream_name n = "Sub") ∧
  (∀ n : Z, to_subtype (to_stream_name n) = n ↔ n = 0 ∨ n = 1) ∧
  (∀ s : string, to_stream_name (to_subtype s) = s ↔ s = "Main" ∨ s = "Sub").
Proof.
  split; [|split; [|split]].
  - intros s. unfold to_subtype. repeat case_decide; auto.
  - intros n. unfold to_stream_name, STREAM_MAIN, STREAM_SUB. case_decide; auto.
  - intros n. unfold to_stream_name. case_decide as Hn.
    + subst n. split; [right; reflexivity | reflexivity].
    + change (to_subtype STREAM_MAIN) with 0. split; [intros <-; left; reflexivity|].
      intros [-> | ->]; [reflexivity | contradiction].
  - intros s. unfold to_subtype, STREAM_MAIN, STREAM_SUB.
    repeat case_decide; subst; unfold to_stream_name, STREAM_MAIN, STREAM_SUB; simpl;
      split; auto; try (intros [? | ?]; congruence).
Qed.

Lemma str_app_inv_head (a b c : string) : a +:+ b = a +:+ c → b = c.
Proof.
  induction a as [|x a IH]; [exact id|].
  change (String x (a +:+ b) = String x (a +:+ c) → b = c).
  intros [= H]. exact (IH H).
Qed.

(** X12: for one client and one channel the stream URL tells the subtype:
    two subtypes with the same URL are the same. *)
Theorem get_rtsp_stream_url_subtype self channel subtype1 subtype2 :
  get_rtsp_stream_url self channel subtype1 = get_rtsp_stream_url self channel subtype2 →
  subtype1 = subtype2.
Proof.
  unfold get_rtsp_stream_url. intros H.
  repeat apply str_app_inv_head in H.
  exact (inj (pretty : Z → string) _ _ H).
Qed.

Lemma get_rtsp_stream_url_subtype_witness :
  to_subtype "Sub" = 1.
Proof.
  apply (get_rtsp_stream_url_subtype (Sample.client (Sample.answering "")) 1).
  reflexivity.
Defined.

(** ** What a client keeps over its lifetime *)

Ltac close_tail :=
  first [ exists []; split; [rewrite app_nil_r; reflexivity|];
          split; [constructor | reflexivity]
        | eexists [_]; split; [reflexivity|];
          split; [repeat constructor | reflexivity]
        | eexists [_; _]; split; [rewrite <- !app_assoc; reflexivity|];
          split; [repeat constructor | reflexivity] ].

Ltac case_handlers :=
  repeat match goal with
         | |- context [if ?b then _ else _] => destruct b; simpl
         end.

Lemma get_tail self url w :
  ∃ tail : list event,
    snd (get self url w)
    = World (trace (sent w (_base self +:+ url)) ++ tail) (S (auths w)) (S (requests w)) ∧
    Forall quiet tail ∧
    closes tail = to_close self w (_base self +:+ url).
Proof.
  unfold get, to_close. run_request.
  destruct (_session self (requests w) "GET" (_base self +:+ url)) as [e|r]; simpl.
  - case_handlers; close_tail.
  - destruct (400 <=? status r); simpl; [case_handlers; close_tail|].
    destruct (text r) as [e|body]; simpl; [case_handlers; close_tail|].
    unfold parse_dahua_api_response. rewrite parse_lines_store. simpl. close_tail.
Qed.

Lemma get_bytes_tail self url w :
  ∃ tail : list event,
    snd (get_bytes self url w)
    = World (trace (sent w (_base self +:+ url)) ++ tail) (S (auths w)) (S (requests w)) ∧
    Forall quiet tail ∧
    closes tail = to_close self w (_base self +:+ url).
Proof.
  unfold get_bytes, to_close. run_request.
  destruct (_session self (requests w) "GET" (_base self +:+ url)) as [e|r]; simpl.
  - case_handlers; close_tail.
  - destruct (400 <=? status r); simpl; [case_handlers; close_tail|].
    destruct (read r) as [e|body]; simpl; [case_handlers; close_tail | close_tail].
Qed.

Lemma stream_events_tail self on_receive events w :
  snd (stream_events self on_receive events w) = w ∨
  ∃ tail : list event,
    snd (stream_events self on_receive events w)
    = World (trace (sent w (stream_events_url self events)) ++ tail)
            (S (auths w)) (S (requests w)) ∧
    Forall quiet tail ∧
    closes tail = to_close self w (stream_events_url self events).
Proof.
  destruct (_username self) as [username|] eqn:Hu;
    [destruct (_password self) as [password|] eqn:Hp|].
  - right. rewrite (stream_events_run self on_receive events w username password Hu Hp).
    unfold to_close. simpl.
    destruct (_session self (requests w) "GET" (stream_events_url self events)) as [e|r];
      simpl; [close_tail|].
    destruct (400 <=? status r); simpl; [close_tail|].
    exists ((OnReceive <$> delivered on_receive (chunks r)) ++ [Close (requests w)])%list.
    split; [unfold released, received, sent; simpl; rewrite <- !app_assoc; reflexivity|].
    split; [apply Forall_app; split; [apply quiet_received | repeat constructor]|].
    rewrite closes_app, closes_received. reflexivity.
  - left. rewrite stream_events_without_credentials_run; auto.
  - left. rewrite stream_events_without_credentials_run; auto.
Qed.

Lemma str_prefix_app (a b : string) : String.prefix a (a +:+ b) = true.
Proof.
  induction a as [|x a IH]; [destruct b; reflexivity|].
  change (String.prefix (String x a) (String x (a +:+ b)) = true). simpl.
  destruct (ascii_dec x x) as [_|Hne]; [exact IH | contradiction].
Qed.

(** One call, seen from the trace. *)
Lemma after_call_step self w c :
  after_call self w c = w ∨
  ∃ (full : string) (tail : list event),
    after_call self w c
    = World (trace (sent w full) ++ tail) (S (auths w)) (S (requests w)) ∧
    Forall quiet tail ∧
    closes tail = to_close self w full ∧
    String.prefix (_base self) full = true.
Proof.
  destruct c as [url|url|on_receive events]; simpl.
  - right. destruct (get_tail self url w) as (tail & Hw & Hquiet & Hcloses).
    exists (_base self +:+ url), tail. auto using str_prefix_app.
  - right. destruct (get_bytes_tail self url w) as (tail & Hw & Hquiet & Hcloses).
    exists (_base self +:+ url), tail. auto using str_prefix_app.
  - destruct (stream_events_tail self on_receive events w)
      as [Hsame | (tail & Hw & Hquiet & Hcloses)]; [left; exact Hsame|].
    right. exists (stream_events_url self events), tail.
    repeat split; try assumption. apply str_prefix_app.
Qed.

Lemma answered_app s (t1 t2 : list event) :
  answered s (t1 ++ t2) = (answered s t1 ++ answered s t2)%list.
Proof.
  induction t1 as [|ev t1 IH]; simpl; [reflexivity|].
  destruct ev; simpl; try exact IH.
  destruct (s req method url); simpl; rewrite IH; reflexivity.
Qed.

Lemma answered_quiet s (t : list event) : Forall quiet t → answered s t = [].
Proof.
  induction 1 as [|ev t Hev _ IH]; [reflexivity|].
  destruct ev; simpl in *; try contradiction; exact IH.
Qed.

Lemma after_call_settled self w c : settled self w → settled self (after_call self w c).
Proof.
  intros (Heq & Hnodup & Hbelow).
  destruct (after_call_step self w c)
    as [-> | (full & tail & -> & Hquiet & Hcloses & _)]; [repeat split; assumption|].
  unfold settled, sent. simpl.
  rewrite !closes_app, !answered_app, (answered_quiet _ _ Hquiet), Hcloses. simpl.
  unfold to_close.
  destruct (_session self (requests w) "GET" full) as [e|r]; simpl;
    rewrite !app_nil_r.
  - repeat split; try assumption.
    eapply Forall_impl; [exact Hbelow|]. simpl. intros n Hn. lia.
  - split; [rewrite Heq; reflexivity|]. split.
    + apply NoDup_app. split; [exact Hnodup|]. split; [|apply NoDup_singleton].
      intros n Hin Hn. apply list_elem_of_singleton in Hn. subst n.
      rewrite Forall_forall in Hbelow. specialize (Hbelow _ Hin). lia.
    + apply Forall_app. split; [|repeat constructor; lia].
      eapply Forall_impl; [exact Hbelow|]. simpl. intros n Hn. lia.
Qed.

Lemma after_calls_settled self calls : ∀ w,
  settled self w → settled self (after_calls self w calls).
Proof.
  induction calls as [|c rest IH]; intros w Hw; simpl; [exact Hw|].
  apply IH, after_call_settled, Hw.
Qed.

Lemma settled_world0 self : settled self world0.
Proof. repeat split; constructor. Qed.

(** X13: over any sequence of calls of [get], [get_bytes] and [stream_events]
    the responses closed are exactly those the requests obtained, in their
    order, and none is closed twice. *)
Theorem responses_closed_exactly_once self calls :
  closes (trace (after_calls self world0 calls))
  = answered (_session self) (trace (after_calls self world0 calls)) ∧
  NoDup (closes (trace (after_calls self world0 calls))).
Proof.
  destruct (after_calls_settled self calls world0 (settled_world0 self))
    as (Heq & Hnodup & _).
  split; assumption.
Qed.

Lemma after_call_to_the_camera self w c :
  Forall (to_the_camera self) (trace w) →
  Forall (to_the_camera self) (trace (after_call self w c)).
Proof.
  intros Hw.
  destruct (after_call_step self w c)
    as [-> | (full & tail & -> & Hquiet & _ & Hprefix)]; [exact Hw|].
  unfold sent. simpl. repeat (apply Forall_app; split); try exact Hw.
  - repeat constructor.
  - repeat constructor. exact Hprefix.
  - eapply Forall_impl; [exact Hquiet|]. intros ev Hev. destruct ev; simpl in *; auto.
    contradiction.
Qed.

(** X14: a client only ever sends GET requests, and only to URLs that start
    with its own base address. *)
Theorem requests_go_to_the_camera self calls :
  Forall (to_the_camera self) (trace (after_calls self world0 calls)).
Proof.
  assert (∀ w, Forall (to_the_camera self) (trace w) →
               Forall (to_the_camera self) (trace (after_calls self w calls))) as Hall.
  { induction calls as [|c rest IH]; intros w Hw; simpl; [exact Hw|].
    apply IH, after_call_to_the_camera, Hw. }
  apply Hall. constructor.
Qed.

(** ** The operations, as sequences of one-off calls *)

Lemma raise_unless_ok_world {S} value msg (s : S) :
  snd (raise_unless_ok value msg s) = s.
Proof.
  unfold raise_unless_ok, py_in, mbind, M_bind, mret, M_ret, raise.
  destruct value as [d|]; simpl; [|reflexivity].
  destruct (bool_decide (is_Some (d !! "OK"))); simpl; [reflexivity|].
  destruct (bool_decide (is_Some (d !! "ok"))); reflexivity.
Qed.

Lemma run_set_world self op w : snd (run_set self op w) = snd (get self (set_url op) w).
Proof.
  rewrite run_set_unfold. unfold mbind, M_bind.
  destruct (get self (set_url op) w) as [[value|e] w1]; simpl; [|reflexivity].
  apply raise_unless_ok_world.
Qed.

Lemma enable_motion_detection_world self enabled w :
  snd (enable_motion_detection self enabled w)
    = after_calls self w [CallGet (motion_detection_url enabled)] ∨
  snd (enable_motion_detection self enabled w)
    = after_calls self w [CallGet (motion_detection_url enabled);
                          CallGet (motion_detection_legacy_url enabled)].
Proof.
  unfold enable_motion_detection, mbind, M_bind, after_calls. simpl.
  destruct (get self (motion_detection_url enabled) w) as [[[d|]|e] w1]; simpl;
    [|left; reflexivity|left; reflexivity].
  unfold py_in, mret, M_ret. simpl.
  destruct (bool_decide (is_Some (d !! "OK"))); simpl; [left; reflexivity|].
  right. destruct (get self (motion_detection_legacy_url enabled) w1) as [[v|e] w2];
    reflexivity.
Qed.

Lemma set_url_cgi op : String.prefix "/cgi-bin/" (set_url op) = true.
Proof. reflexivity. Qed.

Lemma after_operation_calls self w op :
  ∃ cs : list call,
    after_operation self w op = after_calls self w cs ∧
    (1 ≤ length cs ≤ 2)%nat ∧
    Forall cgi_call cs.
Proof.
  destruct op as [channel| | | | | | | |profile_mode|name|enabled brightness profile_mode|
                  |dahua_type enabled|enabled|mode| |enabled|op];
    unfold after_operation, async_set_lighting_v2, async_set_coaxial_control_state,
      async_set_record_mode, _LOGGER_debug, mbind, M_bind, mret, M_ret;
    try (eexists [CallGet _]; split; [reflexivity|]; split; [simpl; lia|];
         repeat constructor; fail);
    try (eexists [CallGetBytes _]; split; [reflexivity|]; split; [simpl; lia|];
         repeat constructor; fail).
  - destruct (enable_motion_detection_world self enabled w) as [Hone | Htwo].
    + eexists [_]. split; [exact Hone|]. split; [simpl; lia|].
      repeat constructor.
    + eexists [_; _]. split; [exact Htwo|]. split; [simpl; lia|].
      repeat constructor.
  - exists [CallGet (set_url op)]. split; [apply run_set_world|].
    split; [simpl; lia|]. repeat constructor.
Qed.

Lemma operations_are_cgi_calls_run self ops : ∀ w,
  ∃ cs : list call,
    after_operations self w ops = after_calls self w cs ∧
    (length ops ≤ length cs ≤ 2 * length ops)%nat ∧
    Forall cgi_call cs.
Proof.
  induction ops as [|op rest IH]; intros w.
  - exists []. repeat split; simpl; try lia. constructor.
  - destruct (after_operation_calls self w op) as (cs1 & Hop & Hlen1 & Hcgi1).
    destruct (IH (after_operation self w op)) as (cs2 & Hrest & Hlen2 & Hcgi2).
    exists (cs1 ++ cs2)%list. split; [|split].
    + unfold after_operations, after_calls in *. simpl.
      rewrite foldl_app, <- Hop. exact Hrest.
    + rewrite length_app. simpl. lia.
    + apply Forall_app. split; assumption.
Qed.

Lemma after_operation_shape self w op :
  ∃ cs : list call,
    calls_shape op cs ∧ after_operation self w op = after_calls self w cs.
Proof.
  destruct op as [channel| | | | | | | |profile_mode|name|enabled brightness profile_mode|
                  |dahua_type enabled|enabled|mode| |enabled|op];
    unfold calls_shape, after_operation, async_set_lighting_v2,
      async_set_coaxial_control_state, async_set_record_mode, _LOGGER_debug,
      mbind, M_bind, mret, M_ret;
    try (eexists [CallGet _]; apply and_comm; split; [reflexivity|];
         split; [repeat constructor | reflexivity]; fail);
    try (eexists [CallGetBytes _]; apply and_comm; split; [reflexivity|];
         split; [repeat constructor | reflexivity]; fail).
  - destruct (enable_motion_detection_world self enabled w) as [Hone | Htwo].
    + eexists. split; [split; [|left; reflexivity]|exact Hone]. repeat constructor.
    + eexists. split; [split; [|right; reflexivity]|exact Htwo]. repeat constructor.
  - exists [CallGet (set_url op)].
    split; [split; [repeat constructor | reflexivity] | apply run_set_world].
Qed.

(** X15: each operation of the family (every operation of the client but
    [stream_events], [async_set_lighting_v1] and [async_set_lighting_v1_mode])
    acts on the camera as exactly one one-off call on a path under /cgi-bin/;
    [enable_motion_detection] acts as the call on its first URL, alone or
    followed by the call on the legacy URL.  A sequence of operations acts as
    these calls one after the other. *)
Theorem operations_are_cgi_calls self ops : ∀ w,
  ∃ css : list (list call),
    Forall2 calls_shape ops css ∧
    after_operations self w ops = after_calls self w (concat css).
Proof.
  induction ops as [|op rest IH]; intros w.
  - exists []. split; [constructor | reflexivity].
  - destruct (after_operation_shape self w op) as (cs & Hshape & Hop).
    destruct (IH (after_operation self w op)) as (css & Hshapes & Hrest).
    exists (cs :: css). split; [constructor; assumption|].
    unfold after_operations, after_calls in *. simpl.
    rewrite foldl_app, <- Hop. exact Hrest.
Qed.

Lemma str_prefix_app_both (a b c : string) :
  String.prefix a b = true → String.prefix (c +:+ a) (c +:+ b) = true.
Proof.
  intros Hab. induction c as [|x c IH]; [exact Hab|].
  change (String.prefix (String x (c +:+ a)) (String x (c +:+ b)) = true). simpl.
  destruct (ascii_dec x x) as [_|Hne]; [exact IH | contradiction].
Qed.

Lemma after_call_cgi self w c :
  cgi_call c →
  Forall (cgi_request self) (trace w) →
  Forall (cgi_request self) (trace (after_call self w c)).
Proof.
  intros Hc Hw.
  assert (∀ url tail,
            String.prefix "/cgi-bin/" url = true → Forall quiet tail →
            Forall (cgi_request self) (trace (sent w (_base self +:+ url)) ++ tail))
    as Hstep.
  { intros url tail Hurl Hquiet. unfold sent. simpl.
    repeat (apply Forall_app; split); try exact Hw.
    - repeat constructor.
    - repeat constructor. apply str_prefix_app_both, Hurl.
    - eapply Forall_impl; [exact Hquiet|]. intros ev Hev.
      destruct ev; simpl in *; auto. contradiction. }
  destruct c as [url|url|on_receive events]; unfold cgi_call in Hc; simpl in *.
  - destruct (get_tail self url w) as (tail & -> & Hquiet & _). simpl.
    apply (Hstep url tail Hc Hquiet).
  - destruct (get_bytes_tail self url w) as (tail & -> & Hquiet & _). simpl.
    apply (Hstep url tail Hc Hquiet).
  - contradiction.
Qed.

Lemma after_calls_cgi self cs : ∀ w,
  Forall cgi_call cs →
  Forall (cgi_request self) (trace w) →
  Forall (cgi_request self) (trace (after_calls self w cs)).
Proof.
  induction cs as [|c rest IH]; intros w Hcs Hw; simpl; [exact Hw|].
  inversion Hcs as [|? ? Hc Hrest]; subst.
  apply (IH _ Hrest), (after_call_cgi self w c Hc Hw).
Qed.

(** X16: over any sequence of operations of the family (every operation of
    the client but [stream_events], [async_set_lighting_v1] and
    [async_set_lighting_v1_mode]) on a new client, every request is a GET
    under the client's base address and /cgi-bin/, goes through an
    authenticator built for it alone, and every response obtained is closed
    exactly once. *)
Theorem operations_keep_the_client_settled self ops :
  Forall (cgi_request self) (trace (after_operations self world0 ops)) ∧
  used (trace (after_operations self world0 ops))
    = created (trace (after_operations self world0 ops)) ∧
  NoDup (used (trace (after_operations self world0 ops))) ∧
  closes (trace (after_operations self world0 ops))
    = answered (_session self) (trace (after_operations self world0 ops)) ∧
  NoDup (closes (trace (after_operations self world0 ops))).
Proof.
  destruct (operations_are_cgi_calls_run self ops world0) as (cs & -> & _ & Hcgi).
  destruct (after_calls_authenticators self cs world0) as [Hcreated Hused];
    [reflexivity | reflexivity |].
  destruct (after_calls_settled self cs world0 (settled_world0 self))
    as (Heq & Hnodup & _).
  split; [apply (after_calls_cgi self cs world0 Hcgi); constructor|].
  split; [rewrite Hused, Hcreated; reflexivity|].
  split; [rewrite Hused; apply NoDup_seq|].
  split; assumption.
Qed.
